(** * The enquiry handler of chalet-josephine, embedded in Rocq

    The repository ships one Cloudflare Worker in two variants that differ
    only in the mail provider they call:

    - [src/workers/contact-form.js]: MailChannels, anonymous relay;
    - the second worker file: Resend, bearer credential [RESEND_API_KEY].

    Both export [fetch(request, env)].  This development embeds the part
    of JavaScript the handlers use (strings as UTF-16 code units, values
    produced by [JSON.parse], string coercion, [trim], [endsWith], the one
    regular expression), the effects of an async handler (reading the
    request body, outbound [fetch], [console.error], exceptions), then
    both handlers, and proves the properties of the specification. *)

From Stdlib Require Import NArith Ascii String.
From stdpp Require Import gmap list.

Set Default Proof Using "Type".

(** ** JavaScript strings *)

(** A JavaScript string is a sequence of UTF-16 code units.  The type is
    an abbreviation, so that list and map lemmas apply directly. *)
Abbreviation jsstring := (list N).

(** Source literals, which are ASCII except for one dash. *)
Fixpoint lit (s : string) : jsstring :=
  match s with
  | EmptyString => []
  | String a rest => N_of_ascii a :: lit rest
  end.
Arguments lit s%_string : simpl never.

(** U+2014 EM DASH, used in both subject lines. *)
Definition em_dash : jsstring := [8212%N].

(** Markup literals.  The attribute values of the markup are quoted with
    U+0022, written here as an apostrophe (the markup has no apostrophe of
    its own). *)
Definition markup (s : string) : jsstring :=
  map (fun c => if (c =? 39)%N then 34%N else c) (lit s).
Arguments markup s%_string : simpl never.

(** [===] on two strings. *)
Definition str_eqb (a b : jsstring) : bool := bool_decide (a = b).

(** ECMAScript WhiteSpace and LineTerminator code points.  Both
    [String.prototype.trim] and the class escape [\s] use exactly this set;
    all of it lies in the Basic Multilingual Plane, so the test is exact on
    code units. *)
Definition is_space (c : N) : bool :=
  ((9 <=? c) && (c <=? 13)          (* TAB, LF, VT, FF, CR *)
   || (c =? 32)                      (* SPACE *)
   || (c =? 160)                     (* NO-BREAK SPACE *)
   || (c =? 5760)                    (* OGHAM SPACE MARK *)
   || (8192 <=? c) && (c <=? 8202)   (* EN QUAD .. HAIR SPACE *)
   || (c =? 8232) || (c =? 8233)     (* LINE / PARAGRAPH SEPARATOR *)
   || (c =? 8239)                    (* NARROW NO-BREAK SPACE *)
   || (c =? 8287)                    (* MEDIUM MATHEMATICAL SPACE *)
   || (c =? 12288)                   (* IDEOGRAPHIC SPACE *)
   || (c =? 65279))%N.               (* ZERO WIDTH NO-BREAK SPACE *)

Fixpoint trimStart (s : jsstring) : jsstring :=
  match s with
  | c :: rest => if is_space c then trimStart rest else s
  | [] => []
  end.

Definition trimEnd (s : jsstring) : jsstring := rev (trimStart (rev s)).

(** [String.prototype.trim]. *)
Definition trim (s : jsstring) : jsstring := trimEnd (trimStart s).

(** [String.prototype.endsWith(searchString)] with the default end
    position: the last [length search] code units are compared. *)
Definition endsWith (s search : jsstring) : bool :=
  (length search <=? length s)%nat
  && str_eqb (drop (length s - length search) s) search.

(** ** Values produced by [JSON.parse] *)

(** A number is kept as the text [Number::toString] prints for it: the
    handlers never compute with numbers, they only print them and test
    them for zero ([JSON.parse] yields no NaN, and both zeros print as
    [0]).  An object is a finite map from property names to values. *)
#[warnings="-register-all"]
Inductive json : Type :=
| JNull
| JBool (b : bool)
| JNum (text : jsstring)
| JStr (s : jsstring)
| JArr (elems : list json)
| JObj (props : gmap jsstring json).

(** A JavaScript value as the handlers see it: [None] is [undefined]. *)
Abbreviation jsvalue := (option json).

(** Exceptions that can escape the handler. *)
Inductive Error : Type :=
| TypeError
| FetchFailed.

(** Synchronous evaluation that may throw. *)
Inductive Result (A : Type) : Type :=
| Ok (a : A)
| Err (e : Error).
Arguments Ok {A} a.
Arguments Err {A} e.

Definition rbind {A B} (r : Result A) (k : A -> Result B) : Result B :=
  match r with
  | Ok a => k a
  | Err e => Err e
  end.

Declare Scope result_scope.
Delimit Scope result_scope with result.
Notation "'let?' x := r 'in' k" := (rbind r (fun x => k))
  (at level 10, x name, r at level 100, k at level 200) : result_scope.

(** [data[name]] and [data.name].  Reading a property of [null] throws;
    a primitive or an array has no property of the names the handlers
    read (none of them is defined on a built-in prototype); an object
    gives its own property or [undefined]. *)
Definition Get (data : json) (name : jsstring) : Result jsvalue :=
  match data with
  | JNull => Err TypeError
  | JObj props => Ok (props !! name)
  | _ => Ok None
  end.

(** ToBoolean. *)
Definition truthy (v : jsvalue) : bool :=
  match v with
  | None | Some JNull => false
  | Some (JBool b) => b
  | Some (JNum text) => negb (str_eqb text (lit "0"))
  | Some (JStr s) => negb (str_eqb s [])
  | Some (JArr _) | Some (JObj _) => true
  end.

(** [a || b]. *)
Definition or_else (a b : jsvalue) : jsvalue := if truthy a then a else b.

(** [Array.prototype.join] on strings already converted. *)
Fixpoint join (sep : jsstring) (parts : list jsstring) : jsstring :=
  match parts with
  | [] => []
  | [p] => p
  | p :: rest => p ++ sep ++ join sep rest
  end.

Fixpoint sequence {A} (rs : list (Result A)) : Result (list A) :=
  match rs with
  | [] => Ok []
  | r :: rest =>
      match r, sequence rest with
      | Ok a, Ok l => Ok (a :: l)
      | Err e, _ => Err e
      | _, Err e => Err e
      end
  end.

(** ToString on a parsed value, as a template literal applies it.
    An array prints its elements joined by commas, [null] elements as the
    empty string.  An object prints as [[object Object]] through
    [Object.prototype.toString], unless an own property [toString] shadows
    it: a parsed property is never callable, [valueOf] then yields no
    primitive either, and the conversion throws. *)
Fixpoint ToString_json (v : json) : Result jsstring :=
  match v with
  | JNull => Ok (lit "null")
  | JBool true => Ok (lit "true")
  | JBool false => Ok (lit "false")
  | JNum text => Ok text
  | JStr s => Ok s
  | JArr elems =>
      match sequence (map (fun e => match e with
                                    | JNull => Ok []
                                    | _ => ToString_json e
                                    end) elems) with
      | Ok parts => Ok (join (lit ",") parts)
      | Err e => Err e
      end
  | JObj props =>
      match props !! lit "toString" with
      | Some _ => Err TypeError
      | None => Ok (lit "[object Object]")
      end
  end.

Definition ToString (v : jsvalue) : Result jsstring :=
  match v with
  | None => Ok (lit "undefined")
  | Some j => ToString_json j
  end.

(** [v?.trim()]: [undefined] when [v] is [undefined] or [null]; the
    trimmed text when [v] is a string; a TypeError otherwise, since no
    other parsed value has a callable [trim]. *)
Definition optional_trim (v : jsvalue) : Result jsvalue :=
  match v with
  | None | Some JNull => Ok None
  | Some (JStr s) => Ok (Some (JStr (trim s)))
  | Some _ => Err TypeError
  end.

(** [a || b] where [a] is a string or [null]/[undefined] and [b] a
    string: the empty string is falsy. *)
Definition or_text (a : option jsstring) (b : jsstring) : jsstring :=
  match a with
  | Some s => if str_eqb s [] then b else s
  | None => b
  end.

(** ** Regular expressions *)

(** The fragment of the pattern syntax the handlers use: literal
    characters, character classes built from characters and [\s],
    possibly negated, concatenation and the quantifiers [*] and [+].
    [Void] matches nothing; it only arises while matching. *)
Inductive class_atom : Type :=
| AChar (c : N)     (* a character listed in the class *)
| ASpace.           (* the escape \s *)

Inductive regex : Type :=
| Void
| Eps
| Chr (c : N)
| Class (negated : bool) (atoms : list class_atom)
| Seq (r1 r2 : regex)
| Star (r : regex).

(** [r+] is [r] followed by [r*]. *)
Definition Plus (r : regex) : regex := Seq r (Star r).

Definition atom_has (a : class_atom) (c : N) : bool :=
  match a with
  | AChar d => (c =? d)%N
  | ASpace => is_space c
  end.

Definition class_has (negated : bool) (atoms : list class_atom) (c : N) : bool :=
  xorb negated (existsb (fun a => atom_has a c) atoms).

Fixpoint nullable (r : regex) : bool :=
  match r with
  | Void | Chr _ | Class _ _ => false
  | Eps | Star _ => true
  | Seq r1 r2 => nullable r1 && nullable r2
  end.

(** The residual of [r] after reading [c], with the union of two
    residuals of a concatenation kept as a list of alternatives. *)
Fixpoint deriv (c : N) (r : regex) : list regex :=
  match r with
  | Void | Eps => []
  | Chr d => if (c =? d)%N then [Eps] else []
  | Class negated atoms => if class_has negated atoms c then [Eps] else []
  | Seq r1 r2 =>
      map (fun d => Seq d r2) (deriv c r1)
      ++ (if nullable r1 then deriv c r2 else [])
  | Star r1 => map (fun d => Seq d (Star r1)) (deriv c r1)
  end.

(** Whole-input matching, as a pattern anchored by [^] and [$] (without
    the multiline flag) requires: the set of residuals is advanced one
    code unit at a time. *)
Fixpoint matches_from (rs : list regex) (s : jsstring) : bool :=
  match s with
  | [] => existsb nullable rs
  | c :: rest => matches_from (flat_map (deriv c) rs) rest
  end.

Definition full_match (r : regex) (s : jsstring) : bool := matches_from [r] s.

(** [/^...$/.test(v)]: the argument is converted to a string first. *)
Definition RegExp_test (anchored : regex) (v : jsvalue) : Result bool :=
  (let? s := ToString v in Ok (full_match anchored s))%result.

(** ** Template literals *)

(** A template literal is its text chunks and substitutions in source
    order; each substitution evaluates its expression and converts the
    value with ToString, and the first one that throws aborts the rest. *)
Inductive part : Type :=
| Text (s : jsstring)
| Subst (expr : Result jsvalue).

Fixpoint template (parts : list part) : Result jsstring :=
  match parts with
  | [] => Ok []
  | Text s :: rest =>
      (let? r := template rest in Ok (s ++ r))%result
  | Subst expr :: rest =>
      (let? v := expr in
       let? s := ToString v in
       let? r := template rest in
       Ok (s ++ r))%result
  end.

(** [expr || 'text']. *)
Definition or_default (expr : Result jsvalue) (text : jsstring) : Result jsvalue :=
  (let? v := expr in Ok (or_else v (Some (JStr text))))%result.

(** What [JSON.stringify] keeps of an object literal: a property whose
    value is [undefined] is dropped. *)
Definition object (fields : list (jsstring * jsvalue)) : json :=
  JObj (list_to_map (omap (fun '(k, v) => (fun j => (k, j)) <$> v) fields)).

(** What [JSON.stringify] keeps of an array literal: [undefined] prints
    as [null]. *)
Definition array (elems : list jsvalue) : json :=
  JArr (map (fun v => default JNull v) elems).

Definition str (s : jsstring) : jsvalue := Some (JStr s).

(** ** The two mail documents *)

(** [buildEmailHtml] and [buildConfirmationHtml] are the same text in
    both worker files; they are embedded once. *)
Definition buildEmailHtml (data : json) : Result jsstring :=
  template
    [ Text (markup "
    <div style='font-family: Arial, sans-serif; max-width: 600px; margin: 0 auto;'>
      <h2 style='color: #8B7355;'>New Booking Enquiry</h2>
      <table style='width: 100%; border-collapse: collapse;'>
        <tr><td style='padding: 8px; border-bottom: 1px solid #eee;'><strong>Name:</strong></td><td style='padding: 8px; border-bottom: 1px solid #eee;'>");
      Subst (Get data (lit "first_name"));
      Text (markup " ");
      Subst (Get data (lit "last_name"));
      Text (markup "</td></tr>
        <tr><td style='padding: 8px; border-bottom: 1px solid #eee;'><strong>Email:</strong></td><td style='padding: 8px; border-bottom: 1px solid #eee;'><a href='mailto:");
      Subst (Get data (lit "email"));
      Text (markup "'>");
      Subst (Get data (lit "email"));
      Text (markup "</a></td></tr>
        <tr><td style='padding: 8px; border-bottom: 1px solid #eee;'><strong>Phone:</strong></td><td style='padding: 8px; border-bottom: 1px solid #eee;'>");
      Subst (or_default (Get data (lit "phone")) (lit "Not provided"));
      Text (markup "</td></tr>
        <tr><td style='padding: 8px; border-bottom: 1px solid #eee;'><strong>Arrival:</strong></td><td style='padding: 8px; border-bottom: 1px solid #eee;'>");
      Subst (Get data (lit "arrival_date"));
      Text (markup "</td></tr>
        <tr><td style='padding: 8px; border-bottom: 1px solid #eee;'><strong>Departure:</strong></td><td style='padding: 8px; border-bottom: 1px solid #eee;'>");
      Subst (Get data (lit "departure_date"));
      Text (markup "</td></tr>
        <tr><td style='padding: 8px; border-bottom: 1px solid #eee;'><strong>Guests:</strong></td><td style='padding: 8px; border-bottom: 1px solid #eee;'>");
      Subst (Get data (lit "guests"));
      Text (markup "</td></tr>
        <tr><td style='padding: 8px;' valign='top'><strong>Message:</strong></td><td style='padding: 8px;'>");
      Subst (or_default (Get data (lit "message")) (lit "No message provided"));
      Text (markup "</td></tr>
      </table>
    </div>
  ") ].

Definition buildConfirmationHtml (data : json) : Result jsstring :=
  template
    [ Text (markup "
    <div style='font-family: Arial, sans-serif; max-width: 600px; margin: 0 auto;'>
      <h2 style='color: #8B7355;'>Thank You, ");
      Subst (Get data (lit "first_name"));
      Text (markup "!</h2>
      <p>We have received your enquiry for Chalet Josephine and will be in touch within 24 hours.</p>
      <h3>Your Enquiry Details:</h3>
      <ul>
        <li><strong>Arrival:</strong> ");
      Subst (Get data (lit "arrival_date"));
      Text (markup "</li>
        <li><strong>Departure:</strong> ");
      Subst (Get data (lit "departure_date"));
      Text (markup "</li>
        <li><strong>Guests:</strong> ");
      Subst (Get data (lit "guests"));
      Text (markup "</li>
      </ul>
      <p>If you have any urgent questions, please contact us at <a href='mailto:info@chalet-josephine.com'>info@chalet-josephine.com</a>.</p>
      <p>Warm regards,<br>The Chalet Josephine Team<br>Managed by Chamonix Prestige</p>
    </div>
  ") ].

(** ** Requests, responses and the effects of a handler *)

Record Request : Type := {
  method : jsstring;                          (* request.method *)
  headers_get : jsstring -> option jsstring;  (* request.headers.get(name) *)
  json_body : option json;                    (* what request.json() settles
                                                 with; None when it rejects *)
}.

(** The body handed to [new Response]: [null], or the text
    [JSON.stringify] gives for a value, identified with that value (the
    order of the properties in the text is not kept). *)
Inductive BodyInit : Type :=
| null
| JSON_stringify (v : json).

Record Response : Type := {
  status : N;
  headers : gmap jsstring jsstring;
  body : BodyInit;
}.

(** The worker's environment bindings; an unset variable is [undefined]. *)
Record Env : Type := {
  TO_EMAIL : option jsstring;
  RESEND_API_KEY : option jsstring;
}.

(** An outbound [fetch(url, init)]. *)
Record OutCall : Type := {
  url : jsstring;
  init_method : jsstring;
  init_headers : gmap jsstring jsstring;
  init_body : BodyInit;
}.

(** What the provider answered: the status line and the body text. *)
Record ProviderResponse : Type := {
  provider_status : N;
  text : jsstring;
}.

(** [response.ok]: the status is in the range 200 to 299. *)
Definition ok (r : ProviderResponse) : bool :=
  ((200 <=? provider_status r) && (provider_status r <=? 299))%N.

(** An outbound [fetch] settles with a response, or rejects when the
    provider cannot be reached. *)
Inductive Settled : Type :=
| Fulfilled (r : ProviderResponse)
| Rejected.

(** An async function body: it returns, throws, or awaits one of the
    platform's operations and goes on with what that settles with. *)
Inductive Task (A : Type) : Type :=
| Return (a : A)
| Throw (e : Error)
| AwaitJson (request : Request) (k : option json -> Task A)
| AwaitFetch (call : OutCall) (k : ProviderResponse -> Task A)
| ConsoleError (args : list jsstring) (k : Task A).
Arguments Return {A} a.
Arguments Throw {A} e.
Arguments AwaitJson {A} request k.
Arguments AwaitFetch {A} call k.
Arguments ConsoleError {A} args k.

(** Synchronous code inside an async body: an exception rejects the
    handler's promise. *)
Definition lift {A B} (r : Result A) (k : A -> Task B) : Task B :=
  match r with
  | Ok a => k a
  | Err e => Throw e
  end.

Declare Scope task_scope.
Delimit Scope task_scope with task.
Notation "'let!' x := r 'in' k" := (lift r (fun x => k))
  (at level 10, x name, r at level 100, k at level 200) : task_scope.

(** What one run of a handler did, in order. *)
Inductive Event : Type :=
| ReadBody
| Sent (call : OutCall)
| Logged (args : list jsstring).

Definition sent_call (e : Event) : option OutCall :=
  match e with
  | Sent call => Some call
  | _ => None
  end.

(** The outbound calls of a trace, oldest first. *)
Definition sends (trace : list Event) : list OutCall := omap sent_call trace.

(** The mail provider, as the handler meets it: it answers each call,
    possibly depending on the calls it has already received. *)
Definition Provider : Type := list OutCall -> OutCall -> Settled.

Inductive Outcome (A : Type) : Type :=
| Returned (a : A)
| Thrown (e : Error).
Arguments Returned {A} a.
Arguments Thrown {A} e.

Fixpoint run {A} (provider : Provider) (t : Task A) (trace : list Event)
  : list Event * Outcome A :=
  match t with
  | Return a => (trace, Returned a)
  | Throw e => (trace, Thrown e)
  | AwaitJson request k =>
      run provider (k (json_body request)) (trace ++ [ReadBody])
  | AwaitFetch call k =>
      match provider (sends trace) call with
      | Fulfilled r => run provider (k r) (trace ++ [Sent call])
      | Rejected => (trace ++ [Sent call], Thrown FetchFailed)
      end
  | ConsoleError args k => run provider k (trace ++ [Logged args])
  end.

(** One invocation of a handler against a provider. *)
Definition invoke {A} (provider : Provider) (t : Task A) : list Event * Outcome A :=
  run provider t [].

(** ** The MailChannels variant *)

Module MailChannels.

Definition ALLOWED_ORIGIN : jsstring := lit "https://www.chalet-josephine.com".

Definition corsHeaders (request : Request) : gmap jsstring jsstring :=
  let origin := or_text (headers_get request (lit "Origin")) [] in
  let allowed :=
    str_eqb origin ALLOWED_ORIGIN || endsWith origin (lit ".chalet-josephine.com") in
  list_to_map
    [ (lit "Access-Control-Allow-Origin", if allowed then origin else ALLOWED_ORIGIN);
      (lit "Access-Control-Allow-Methods", lit "POST, OPTIONS");
      (lit "Access-Control-Allow-Headers", lit "Content-Type") ].

(** The spread of [corsHeaders(request)] comes last in the object
    literal, so its entries take precedence. *)
Definition jsonResponse (body : json) (status : N) (request : Request) : Response :=
  {| status := status;
     headers := corsHeaders request ∪ {[ lit "Content-Type" := lit "application/json" ]};
     body := JSON_stringify body |}.

Definition required : list jsstring :=
  [ lit "first_name"; lit "last_name"; lit "email";
    lit "arrival_date"; lit "departure_date"; lit "guests" ].

(** The loop over [required]: the field whose check [!data[field]?.trim()]
    holds first, if any; the loop goes no further than that field. *)
Fixpoint missing_field (data : json) (fields : list jsstring) : Result (option jsstring) :=
  match fields with
  | [] => Ok None
  | field :: rest =>
      (let? v := Get data field in
       let? trimmed := optional_trim v in
       if negb (truthy trimmed) then Ok (Some field)
       else missing_field data rest)%result
  end.

(** [[^\s@]] *)
Definition no_space_no_at : regex := Class true [ASpace; AChar 64].

(** [/^[^\s@]+@[^\s@]+\.[^\s@]+$/] *)
Definition email_pattern : regex :=
  Seq (Plus no_space_no_at)
    (Seq (Chr 64)
      (Seq (Plus no_space_no_at)
        (Seq (Chr 46) (Plus no_space_no_at)))).

(** The first outbound call: the enquiry, to the operator. *)
Definition enquiry_call (data : json) (toEmail : jsstring) : Result OutCall :=
  (let? reply_to := Get data (lit "email") in
   let? name :=
     template [ Subst (Get data (lit "first_name")); Text (lit " ");
                Subst (Get data (lit "last_name")) ] in
   let? subject :=
     template [ Text (lit "Booking Enquiry: ");
                Subst (Get data (lit "first_name")); Text (lit " ");
                Subst (Get data (lit "last_name"));
                Text (lit " " ++ em_dash ++ lit " ");
                Subst (Get data (lit "arrival_date")); Text (lit " to ");
                Subst (Get data (lit "departure_date")) ] in
   let? html := buildEmailHtml data in
   Ok {| url := lit "https://api.mailchannels.net/tx/v1/send";
         init_method := lit "POST";
         init_headers := {[ lit "content-type" := lit "application/json" ]};
         init_body := JSON_stringify (object
           [ (lit "personalizations", Some (array [ Some (object
               [ (lit "to", Some (array [ Some (object
                   [ (lit "email", str toEmail);
                     (lit "name", str (lit "Chalet Josephine")) ]) ]));
                 (lit "reply_to", Some (object
                   [ (lit "email", reply_to); (lit "name", str name) ])) ]) ]));
             (lit "from", Some (object
               [ (lit "email", str (lit "noreply@chalet-josephine.com"));
                 (lit "name", str (lit "Chalet Josephine Website")) ]));
             (lit "subject", str subject);
             (lit "content", Some (array [ Some (object
               [ (lit "type", str (lit "text/html"));
                 (lit "value", str html) ]) ])) ]) |})%result.

(** The second outbound call: the confirmation, to the guest. *)
Definition confirmation_call (data : json) : Result OutCall :=
  (let? to := Get data (lit "email") in
   let? name :=
     template [ Subst (Get data (lit "first_name")); Text (lit " ");
                Subst (Get data (lit "last_name")) ] in
   let? html := buildConfirmationHtml data in
   Ok {| url := lit "https://api.mailchannels.net/tx/v1/send";
         init_method := lit "POST";
         init_headers := {[ lit "content-type" := lit "application/json" ]};
         init_body := JSON_stringify (object
           [ (lit "personalizations", Some (array [ Some (object
               [ (lit "to", Some (array [ Some (object
                   [ (lit "email", to); (lit "name", str name) ]) ])) ]) ]));
             (lit "from", Some (object
               [ (lit "email", str (lit "noreply@chalet-josephine.com"));
                 (lit "name", str (lit "Chalet Josephine")) ]));
             (lit "subject",
               str (lit "Thank you for your enquiry " ++ em_dash ++ lit " Chalet Josephine"));
             (lit "content", Some (array [ Some (object
               [ (lit "type", str (lit "text/html"));
                 (lit "value", str html) ]) ])) ]) |})%result.

Definition fetch (request : Request) (env : Env) : Task Response :=
  if str_eqb (method request) (lit "OPTIONS") then
    Return {| status := 200; headers := corsHeaders request; body := null |}
  else if negb (str_eqb (method request) (lit "POST")) then
    Return (jsonResponse
      (object [(lit "error", str (lit "Method not allowed"))]) 405 request)
  else
    AwaitJson request (fun settled =>
      match settled with
      | None =>
          Return (jsonResponse
            (object [(lit "error", str (lit "Invalid request body"))]) 400 request)
      | Some data =>
          (let! missing := missing_field data required in
           match missing with
           | Some field =>
               Return (jsonResponse
                 (object [(lit "error", str (lit "Missing required field: " ++ field))])
                 400 request)
           | None =>
           let! well_formed :=
             (let? email := Get data (lit "email") in
              RegExp_test email_pattern email)%result in
           if negb well_formed then
             Return (jsonResponse
               (object [(lit "error", str (lit "Invalid email address"))]) 400 request)
           else
           let toEmail := or_text (TO_EMAIL env) (lit "info@chalet-josephine.com") in
           let! first := enquiry_call data toEmail in
           AwaitFetch first (fun emailResponse =>
             if negb (ok emailResponse) then
               ConsoleError [lit "MailChannels error:"; text emailResponse]
                 (Return (jsonResponse
                   (object [(lit "error", str (lit
                      "Failed to send enquiry. Please try again or contact us directly."))])
                   500 request))
             else
               let! second := confirmation_call data in
               AwaitFetch second (fun _ =>
                 Return (jsonResponse
                   (object [ (lit "success", Some (JBool true));
                             (lit "message", str (lit
                                "Enquiry received. We will respond within 24 hours.")) ])
                   200 request)))
           end)%task
      end).

End MailChannels.

(** ** The Resend variant *)

Module Resend.

Definition ALLOWED_ORIGIN : jsstring := lit "https://www.chalet-josephine.com".

Definition corsHeaders (request : Request) : gmap jsstring jsstring :=
  let origin := or_text (headers_get request (lit "Origin")) [] in
  let allowed :=
    str_eqb origin ALLOWED_ORIGIN || endsWith origin (lit ".chalet-josephine.com") in
  list_to_map
    [ (lit "Access-Control-Allow-Origin", if allowed then origin else ALLOWED_ORIGIN);
      (lit "Access-Control-Allow-Methods", lit "POST, OPTIONS");
      (lit "Access-Control-Allow-Headers", lit "Content-Type") ].

(** The spread of [corsHeaders(request)] comes last in the object
    literal, so its entries take precedence. *)
Definition jsonResponse (body : json) (status : N) (request : Request) : Response :=
  {| status := status;
     headers := corsHeaders request ∪ {[ lit "Content-Type" := lit "application/json" ]};
     body := JSON_stringify body |}.

Definition required : list jsstring :=
  [ lit "first_name"; lit "last_name"; lit "email";
    lit "arrival_date"; lit "departure_date"; lit "guests" ].

(** The loop over [required]: the field whose check [!data[field]?.trim()]
    holds first, if any; the loop goes no further than that field. *)
Fixpoint missing_field (data : json) (fields : list jsstring) : Result (option jsstring) :=
  match fields with
  | [] => Ok None
  | field :: rest =>
      (let? v := Get data field in
       let? trimmed := optional_trim v in
       if negb (truthy trimmed) then Ok (Some field)
       else missing_field data rest)%result
  end.

(** [[^\s@]] *)
Definition no_space_no_at : regex := Class true [ASpace; AChar 64].

(** [/^[^\s@]+@[^\s@]+\.[^\s@]+$/] *)
Definition email_pattern : regex :=
  Seq (Plus no_space_no_at)
    (Seq (Chr 64)
      (Seq (Plus no_space_no_at)
        (Seq (Chr 46) (Plus no_space_no_at)))).

(** The headers of both outbound calls. *)
Definition bearer_headers (apiKey : jsstring) : gmap jsstring jsstring :=
  list_to_map
    [ (lit "Authorization", lit "Bearer " ++ apiKey);
      (lit "Content-Type", lit "application/json") ].

(** The first outbound call: the enquiry, to the operator. *)
Definition enquiry_call (data : json) (apiKey toEmail : jsstring) : Result OutCall :=
  (let? reply_to := Get data (lit "email") in
   let? subject :=
     template [ Text (lit "Booking Enquiry: ");
                Subst (Get data (lit "first_name")); Text (lit " ");
                Subst (Get data (lit "last_name"));
                Text (lit " " ++ em_dash ++ lit " ");
                Subst (Get data (lit "arrival_date")); Text (lit " to ");
                Subst (Get data (lit "departure_date")) ] in
   let? html := buildEmailHtml data in
   Ok {| url := lit "https://api.resend.com/emails";
         init_method := lit "POST";
         init_headers := bearer_headers apiKey;
         init_body := JSON_stringify (object
           [ (lit "from", str (lit "Chalet Josephine <noreply@chalet-josephine.com>"));
             (lit "to", Some (array [str toEmail]));
             (lit "reply_to", reply_to);
             (lit "subject", str subject);
             (lit "html", str html) ]) |})%result.

(** The second outbound call: the confirmation, to the guest. *)
Definition confirmation_call (data : json) (apiKey : jsstring) : Result OutCall :=
  (let? to := Get data (lit "email") in
   let? html := buildConfirmationHtml data in
   Ok {| url := lit "https://api.resend.com/emails";
         init_method := lit "POST";
         init_headers := bearer_headers apiKey;
         init_body := JSON_stringify (object
           [ (lit "from", str (lit "Chalet Josephine <noreply@chalet-josephine.com>"));
             (lit "to", Some (array [to]));
             (lit "subject",
               str (lit "Thank you for your enquiry " ++ em_dash ++ lit " Chalet Josephine"));
             (lit "html", str html) ]) |})%result.

Definition fetch (request : Request) (env : Env) : Task Response :=
  if str_eqb (method request) (lit "OPTIONS") then
    Return {| status := 200; headers := corsHeaders request; body := null |}
  else if negb (str_eqb (method request) (lit "POST")) then
    Return (jsonResponse
      (object [(lit "error", str (lit "Method not allowed"))]) 405 request)
  else
    AwaitJson request (fun settled =>
      match settled with
      | None =>
          Return (jsonResponse
            (object [(lit "error", str (lit "Invalid request body"))]) 400 request)
      | Some data =>
          (let! missing := missing_field data required in
           match missing with
           | Some field =>
               Return (jsonResponse
                 (object [(lit "error", str (lit "Missing required field: " ++ field))])
                 400 request)
           | None =>
           let! well_formed :=
             (let? email := Get data (lit "email") in
              RegExp_test email_pattern email)%result in
           if negb well_formed then
             Return (jsonResponse
               (object [(lit "error", str (lit "Invalid email address"))]) 400 request)
           else
           (* [!apiKey]: the variable is unset, or set to the empty text *)
           match RESEND_API_KEY env with
           | None =>
               Return (jsonResponse
                 (object [(lit "error", str (lit "Email service not configured"))])
                 500 request)
           | Some apiKey =>
           if str_eqb apiKey [] then
             Return (jsonResponse
               (object [(lit "error", str (lit "Email service not configured"))])
               500 request)
           else
           let toEmail := or_text (TO_EMAIL env) (lit "info@chalet-josephine.com") in
           let! first := enquiry_call data apiKey toEmail in
           AwaitFetch first (fun enquiryRes =>
             if negb (ok enquiryRes) then
               ConsoleError [lit "Resend error:"; text enquiryRes]
                 (Return (jsonResponse
                   (object [(lit "error", str (lit
                      "Failed to send enquiry. Please try again or contact us directly."))])
                   500 request))
             else
               let! second := confirmation_call data apiKey in
               AwaitFetch second (fun _ =>
                 Return (jsonResponse
                   (object [ (lit "success", Some (JBool true));
                             (lit "message", str (lit
                                "Enquiry received. We will respond within 24 hours.")) ])
                   200 request)))
           end
           end)%task
      end).

End Resend.

(** * What the specification speaks of *)

(** ** The language of a pattern *)

(** The strings a pattern denotes. *)
Inductive lang : regex -> jsstring -> Prop :=
| lang_eps : lang Eps []
| lang_chr c : lang (Chr c) [c]
| lang_class negated atoms c :
    class_has negated atoms c = true -> lang (Class negated atoms) [c]
| lang_seq r1 r2 s1 s2 :
    lang r1 s1 -> lang r2 s2 -> lang (Seq r1 r2) (s1 ++ s2)
| lang_star_nil r : lang (Star r) []
| lang_star_more r s1 s2 :
    lang r s1 -> lang (Star r) s2 -> lang (Star r) (s1 ++ s2).

#[local] Hint Constructors lang : core.

(** ** The shape of an accepted address *)

(** A text of the shape local-part, [@], domain-part, [.], TLD-part, the
    three parts non-empty and made of characters that [part_char]
    admits. *)
Definition email_shape (part_char : N -> bool) (s : jsstring) : Prop :=
  exists local domain tld,
    s = local ++ [64%N] ++ domain ++ [46%N] ++ tld
    /\ local <> [] /\ domain <> [] /\ tld <> []
    /\ Forall (fun c => part_char c = true) local
    /\ Forall (fun c => part_char c = true) domain
    /\ Forall (fun c => part_char c = true) tld.

(** The parts as the specification words them: non-whitespace. *)
Definition non_space (c : N) : bool := negb (is_space c).

(** The parts as the pattern has them: neither whitespace nor [@]. *)
Definition non_space_non_at (c : N) : bool := negb (is_space c) && negb (c =? 64)%N.

(** ** Enquiry payloads *)

(** The six required fields, in validation order. *)
Definition validation_order : list jsstring :=
  [ lit "first_name"; lit "last_name"; lit "email";
    lit "arrival_date"; lit "departure_date"; lit "guests" ].

(** What a parsed body holds under a name; a body that is not an object
    holds nothing. *)
Definition field_of (data : json) (name : jsstring) : jsvalue :=
  match data with
  | JObj props => props !! name
  | _ => None
  end.

(** A field that is missing (absent, or [null]) or blank after trimming. *)
Definition missing_or_blank (v : jsvalue) : bool :=
  match v with
  | None | Some JNull => true
  | Some (JStr s) => str_eqb (trim s) []
  | Some _ => false
  end.

(** A field that holds text which is not blank after trimming. *)
Definition nonblank_text (v : jsvalue) : bool :=
  match v with
  | Some (JStr s) => negb (str_eqb (trim s) [])
  | _ => false
  end.

(** A field that holds text, or is missing. *)
Definition text_or_missing (v : jsvalue) : bool :=
  match v with
  | None | Some JNull | Some (JStr _) => true
  | Some _ => false
  end.

(** A field that holds a value other than text: a number, a boolean, an
    array or an object. *)
Definition non_text (v : jsvalue) : bool := negb (text_or_missing v).

(** A field is present in a body. *)
Definition present (data : json) (name : jsstring) : bool :=
  match field_of data name with
  | Some _ => true
  | None => false
  end.

(** The payload passes the field check and the address check of a
    handler whose address pattern is [pattern]. *)
Definition passes_validation (pattern : regex) (data : json) : bool :=
  forallb (fun f => nonblank_text (field_of data f)) validation_order
  && match field_of data (lit "email") with
     | Some (JStr e) => full_match pattern e
     | _ => false
     end.

(** A value a template literal can print. *)
Definition printable (v : jsvalue) : bool :=
  match ToString v with
  | Ok _ => true
  | Err _ => false
  end.

(** A fully valid enquiry: it passes validation, and its two optional
    fields can be printed into the mail documents, as they can whenever
    they hold text or are missing. *)
Definition fully_valid (pattern : regex) (data : json) : bool :=
  passes_validation pattern data
  && printable (field_of data (lit "phone"))
  && printable (field_of data (lit "message")).

(** ** Responses *)

Definition error_body (message : jsstring) : BodyInit :=
  JSON_stringify (object [(lit "error", str message)]).

Definition success_body : BodyInit :=
  JSON_stringify (object
    [ (lit "success", Some (JBool true));
      (lit "message", str (lit "Enquiry received. We will respond within 24 hours.")) ]).

(** The run answered the client with this status and this body. *)
Definition answers (result : list Event * Outcome Response) (code : N) (b : BodyInit) : Prop :=
  exists r, result.2 = Returned r /\ status r = code /\ body r = b.

(** ** Origins *)

Definition canonical_site : jsstring := lit "https://www.chalet-josephine.com".

(** The request's [Origin] header, if any. *)
Definition origin_of (request : Request) : option jsstring :=
  headers_get request (lit "Origin").

(** A character of a host name label: a letter, a digit or a hyphen. *)
Definition label_char (c : N) : bool :=
  ((97 <=? c) && (c <=? 122) || (65 <=? c) && (c <=? 90)
   || (48 <=? c) && (c <=? 57) || (c =? 45))%N.

(** [origin] is [https://<label>.<host>] for one non-empty label: a
    direct subdomain of [host]. *)
Definition direct_subdomain (host origin : jsstring) : bool :=
  let scheme := lit "https://" in
  let tail := lit "." ++ host in
  (length scheme + length tail <? length origin)%nat
  && str_eqb (take (length scheme) origin) scheme
  && endsWith origin tail
  && forallb label_char
       (take (length origin - length scheme - length tail)
             (drop (length scheme) origin)).

(** The value the specification words for [Access-Control-Allow-Origin]:
    the request's Origin when it is the canonical site or a direct
    subdomain of it, the canonical site otherwise. *)
Definition worded_allow_origin (request : Request) : jsstring :=
  match origin_of request with
  | Some o =>
      if str_eqb o canonical_site
         || direct_subdomain (lit "www.chalet-josephine.com") o
      then o else canonical_site
  | None => canonical_site
  end.

(** The origins the handlers echo: the canonical site, and any text that
    ends with [.chalet-josephine.com]. *)
Definition echoed (o : jsstring) : Prop :=
  o = canonical_site \/ exists front, o = front ++ lit ".chalet-josephine.com".

(** The value of [Access-Control-Allow-Origin] for a request: its Origin
    when echoed, the canonical site otherwise and when there is none. *)
Definition allow_origin_is (request : Request) (value : jsstring) : Prop :=
  match origin_of request with
  | Some o => (echoed o -> value = o) /\ (~ echoed o -> value = canonical_site)
  | None => value = canonical_site
  end.

(** ** Providers *)

(** The provider answers the first call it receives with a response
    whose [ok] flag is [accepted]. *)
Definition first_reply (provider : Provider) (accepted : bool) : Prop :=
  forall call, exists r, provider [] call = Fulfilled r /\ ok r = accepted.

(** The provider answers the second call it receives with some
    response, of any status. *)
Definition second_reply_any (provider : Provider) : Prop :=
  forall call1 call2, exists r, provider [call1] call2 = Fulfilled r.

(** The provider answers the second call it receives with a response
    whose [ok] flag is [accepted]. *)
Definition second_reply (provider : Provider) (accepted : bool) : Prop :=
  forall call1 call2, exists r, provider [call1] call2 = Fulfilled r /\ ok r = accepted.

(** The request ends before any provider call: it is a preflight, it has
    another method than POST, its body is no JSON, or its payload does not
    pass validation. *)
Definition stops_before_provider (pattern : regex) (request : Request) : bool :=
  str_eqb (method request) (lit "OPTIONS")
  || negb (str_eqb (method request) (lit "POST"))
  || match json_body request with
     | None => true
     | Some data => negb (passes_validation pattern data)
     end.

(** ** Devices of the proofs *)

(** Every way the task can return satisfies [Q], whatever the platform
    operations settle with. *)
Fixpoint returns_only {A} (Q : A -> Prop) (t : Task A) : Prop :=
  match t with
  | Return a => Q a
  | Throw _ => True
  | AwaitJson _ k => forall settled, returns_only Q (k settled)
  | AwaitFetch _ k => forall r, returns_only Q (k r)
  | ConsoleError _ k => returns_only Q k
  end.

(** The response carries the [Access-Control-Allow-Origin] of the
    request's CORS headers. *)
Definition carries_cors (request : Request) (r : Response) : Prop :=
  headers r !! lit "Access-Control-Allow-Origin"
  = MailChannels.corsHeaders request !! lit "Access-Control-Allow-Origin".

(** A part of a template literal that evaluates and prints. *)
Definition part_prints (p : part) : Prop :=
  match p with
  | Text _ => True
  | Subst expr => exists v, expr = Ok v /\ printable v = true
  end.

(** The facts a validated payload gives about its fields. *)
Record validated (pattern : regex) (data : json) : Prop := {
  v_not_null : data <> JNull;
  v_first_name : nonblank_text (field_of data (lit "first_name")) = true;
  v_last_name : nonblank_text (field_of data (lit "last_name")) = true;
  v_email : nonblank_text (field_of data (lit "email")) = true;
  v_arrival_date : nonblank_text (field_of data (lit "arrival_date")) = true;
  v_departure_date : nonblank_text (field_of data (lit "departure_date")) = true;
  v_guests : nonblank_text (field_of data (lit "guests")) = true;
  v_address : exists e, Get data (lit "email") = Ok (Some (JStr e))
                        /\ full_match pattern e = true;
}.

(** ** Sample requests, environments and providers *)

Definition no_origin : jsstring -> option jsstring := fun _ => None.

Definition with_origin (o : jsstring) : jsstring -> option jsstring :=
  fun name => if str_eqb name (lit "Origin") then Some o else None.

Definition post (data : json) : Request :=
  {| method := lit "POST"; headers_get := no_origin; json_body := Some data |}.

(** A complete enquiry. *)
Definition enquiry : json :=
  object
    [ (lit "first_name", str (lit "Ann"));
      (lit "last_name", str (lit "Lee"));
      (lit "email", str (lit "ann@example.com"));
      (lit "arrival_date", str (lit "2025-01-04"));
      (lit "departure_date", str (lit "2025-01-11"));
      (lit "guests", str (lit "4")) ].

(** The same enquiry with one field replaced. *)
Definition enquiry_with (name : jsstring) (v : json) : json :=
  match enquiry with
  | JObj props => JObj (<[name := v]> props)
  | other => other
  end.

(** The same enquiry without one field. *)
Definition enquiry_without (name : jsstring) : json :=
  match enquiry with
  | JObj props => JObj (delete name props)
  | other => other
  end.

Definition bare_env : Env := {| TO_EMAIL := None; RESEND_API_KEY := None |}.

Definition keyed_env : Env :=
  {| TO_EMAIL := None; RESEND_API_KEY := Some (lit "re_test") |}.

Definition reply (code : N) : Settled :=
  Fulfilled {| provider_status := code; text := [] |}.

Definition accepting : Provider := fun _ _ => reply 200.

Definition refusing : Provider := fun _ _ => reply 500.

(** Accepts the first call and refuses the following ones. *)
Definition accepting_once : Provider :=
  fun history _ => match history with [] => reply 200 | _ => reply 500 end.

(** A preflight whose Origin only ends with the site's domain. *)
Definition suffix_origin : jsstring := lit "https://evil.example/.chalet-josephine.com".

Definition suffix_preflight : Request :=
  {| method := lit "OPTIONS"; headers_get := with_origin suffix_origin;
     json_body := None |}.

Definition suffix_preflight_response : Response :=
  {| status := 200;
     headers := list_to_map
       [ (lit "Access-Control-Allow-Origin", suffix_origin);
         (lit "Access-Control-Allow-Methods", lit "POST, OPTIONS");
         (lit "Access-Control-Allow-Headers", lit "Content-Type") ];
     body := null |}.

(** An enquiry whose first name is a number and whose last name is
    missing. *)
Definition numbered_enquiry : json :=
  object [ (lit "first_name", Some (JNum (lit "5"))) ].

(** A complete enquiry that gives the number of guests as a number. *)
Definition counted_enquiry : json := enquiry_with (lit "guests") (JNum (lit "4")).

(** ** Further devices and samples *)

(** The response carries the two fixed CORS headers. *)
Definition fixed_cors (r : Response) : Prop :=
  headers r !! lit "Access-Control-Allow-Methods" = Some (lit "POST, OPTIONS")
  /\ headers r !! lit "Access-Control-Allow-Headers" = Some (lit "Content-Type").

(** The response is a JSON document, declared as such. *)
Definition json_typed (r : Response) : Prop :=
  headers r !! lit "Content-Type" = Some (lit "application/json")
  /\ exists v, body r = JSON_stringify v.

(** The status is one of the four the handlers use. *)
Definition known_status (r : Response) : bool :=
  existsb (N.eqb (status r)) [200; 400; 405; 500]%N.

(** The task awaits at most [n] outbound calls, whatever the platform
    operations settle with. *)
Fixpoint sends_at_most {A} (n : nat) (t : Task A) : Prop :=
  match t with
  | Return _ | Throw _ => True
  | AwaitJson _ k => forall settled, sends_at_most n (k settled)
  | AwaitFetch _ k =>
      match n with
      | O => False
      | S m => forall r, sends_at_most m (k r)
      end
  | ConsoleError _ k => sends_at_most n k
  end.

(** A request with a method and no body. *)
Definition bodiless (m : jsstring) : Request :=
  {| method := m; headers_get := no_origin; json_body := None |}.

(** The provider cannot be reached for the first call. *)
Definition first_rejects (provider : Provider) : Prop :=
  forall call, provider [] call = Rejected.

(** The provider cannot be reached for the second call. *)
Definition second_rejects (provider : Provider) : Prop :=
  forall call1 call2, provider [call1] call2 = Rejected.

(** A provider that cannot be reached. *)
Definition unreachable : Provider := fun _ _ => Rejected.

(** A provider that accepts the first call and cannot be reached after. *)
Definition reachable_once : Provider :=
  fun history _ => match history with [] => reply 200 | _ => Rejected end.

(** A provider that refuses every call with status 422 and a message. *)
Definition refusing_with (message : jsstring) : Provider :=
  fun _ _ => Fulfilled {| provider_status := 422; text := message |}.

(** An environment whose credential is set to the empty text. *)
Definition empty_key_env : Env := {| TO_EMAIL := None; RESEND_API_KEY := Some [] |}.

(** ** Reading an outbound call *)

(** A step into a JSON document: a property of an object or an element of
    an array. *)
Inductive step : Type :=
| Key (name : jsstring)
| Index (i : nat).

Fixpoint at_path (v : json) (path : list step) : jsvalue :=
  match path with
  | [] => Some v
  | Key name :: rest =>
      match v with
      | JObj props =>
          match props !! name with
          | Some w => at_path w rest
          | None => None
          end
      | _ => None
      end
  | Index i :: rest =>
      match v with
      | JArr elems =>
          match elems !! i with
          | Some w => at_path w rest
          | None => None
          end
      | _ => None
      end
  end.

(** What the JSON body of a call holds at a path. *)
Definition call_value (call : OutCall) (path : list step) : jsvalue :=
  match init_body call with
  | JSON_stringify v => at_path v path
  | null => None
  end.

(** An environment that overrides the operator's address. *)
Definition override_env : Env :=
  {| TO_EMAIL := Some (lit "owner@example.org");
     RESEND_API_KEY := Some (lit "re_test") |}.

(** The properties of the sample enquiry. *)
Definition enquiry_props : gmap jsstring json :=
  match enquiry with
  | JObj props => props
  | _ => ∅
  end.

(** An object that shadows [toString] with a property of its own. *)
Definition shadowing : json := object [(lit "toString", Some JNull)].

(** The provider's answer depends on how many calls it has received, not
    on what the calls hold. *)
Definition call_blind (provider : Provider) : Prop :=
  forall history history' call call',
    length history = length history' -> provider history call = provider history' call'.

(** The sample enquiry with a last name made of a space, a tab and a
    no-break space. *)
Definition blank_named_enquiry : json :=
  enquiry_with (lit "last_name") (JStr [32; 9; 160]%N).

(** * Properties *)

(** ** Strings *)

Lemma str_eqb_eq (a b : jsstring) : str_eqb a b = true <-> a = b.
Proof. unfold str_eqb. apply bool_decide_eq_true. Qed.

Lemma str_eqb_neq (a b : jsstring) : str_eqb a b = false <-> a <> b.
Proof. unfold str_eqb. apply bool_decide_eq_false. Qed.

Lemma str_eqb_refl (a : jsstring) : str_eqb a a = true.
Proof. by apply str_eqb_eq. Qed.

(** [endsWith] holds exactly of the strings that have the searched text
    as their tail. *)
Lemma endsWith_spec (s search : jsstring) :
  endsWith s search = true <-> exists front, s = front ++ search.
Proof.
  unfold endsWith. rewrite andb_true_iff, Nat.leb_le, str_eqb_eq. split.
  - intros [_ Hdrop]. exists (take (length s - length search) s).
    rewrite <- (take_drop (length s - length search) s) at 1. by rewrite Hdrop.
  - intros [front ->]. rewrite length_app. split; [lia |].
    replace (length front + length search - length search)%nat
      with (length front) by lia.
    by rewrite drop_app_length.
Qed.

(** ** The matcher against the language of a pattern *)

Lemma lang_void_inv s : lang Void s -> False.
Proof. inversion 1. Qed.

Lemma lang_eps_inv s : lang Eps s -> s = [].
Proof. by inversion 1. Qed.

Lemma lang_chr_inv c s : lang (Chr c) s -> s = [c].
Proof. by inversion 1. Qed.

Lemma lang_class_inv negated atoms s :
  lang (Class negated atoms) s ->
  exists c, s = [c] /\ class_has negated atoms c = true.
Proof. inversion 1; subst; eauto. Qed.

Lemma lang_seq_inv r1 r2 s :
  lang (Seq r1 r2) s -> exists s1 s2, s = s1 ++ s2 /\ lang r1 s1 /\ lang r2 s2.
Proof. inversion 1; subst; eauto 6. Qed.

Lemma nullable_spec r : nullable r = true <-> lang r [].
Proof.
  induction r as [| | c | negated atoms | r1 IH1 r2 IH2 | r IH]; simpl.
  - split; [done | by intros ?%lang_void_inv].
  - split; auto.
  - split; [done | by intros ?%lang_chr_inv].
  - split; [done | by intros (c & ? & _)%lang_class_inv].
  - rewrite andb_true_iff, IH1, IH2. split.
    + intros [H1 H2]. change (@nil N) with (@nil N ++ []). auto.
    + intros (s1 & s2 & Heq & H1 & H2)%lang_seq_inv.
      symmetry in Heq. apply app_eq_nil in Heq as [-> ->]. auto.
  - split; auto.
Qed.

(** A non-empty match of [r*] starts with a non-empty match of [r]. *)
Lemma lang_star_cons r c s :
  lang (Star r) (c :: s) ->
  exists s1 s2, s = s1 ++ s2 /\ lang r (c :: s1) /\ lang (Star r) s2.
Proof.
  intros H. remember (Star r) as r' eqn:Hr. remember (c :: s) as w eqn:Hw.
  revert s Hw.
  induction H as [| | | | | r0 s1 s2 H1 _ H2 IH2]; try discriminate.
  injection Hr as ->. intros s Hw.
  destruct s1 as [| c1 s1]; simpl in Hw.
  - by apply IH2.
  - injection Hw as -> <-. eauto.
Qed.

Lemma deriv_spec c r s :
  (exists d, d ∈ deriv c r /\ lang d s) <-> lang r (c :: s).
Proof.
  revert s.
  induction r as [| | d | negated atoms | r1 IH1 r2 IH2 | r IH]; intros s; simpl.
  - split; [intros (d & Hd & _); by apply elem_of_nil in Hd | by intros ?%lang_void_inv].
  - split; [intros (d & Hd & _); by apply elem_of_nil in Hd | by intros ?%lang_eps_inv].
  - destruct (N.eqb_spec c d) as [-> | Hne]; split.
    + intros (e & He & Hl). apply list_elem_of_singleton in He as ->.
      by apply lang_eps_inv in Hl as ->.
    + intros [= ->]%lang_chr_inv.
      exists Eps. split; [by apply list_elem_of_singleton | auto].
    + intros (e & He & _). by apply elem_of_nil in He.
    + intros [= -> ->]%lang_chr_inv. done.
  - destruct (class_has negated atoms c) eqn:Hc; split.
    + intros (e & He & Hl). apply list_elem_of_singleton in He as ->.
      apply lang_eps_inv in Hl as ->. auto.
    + intros (c' & [= <- ->] & _)%lang_class_inv.
      exists Eps. split; [by apply list_elem_of_singleton | auto].
    + intros (e & He & _). by apply elem_of_nil in He.
    + intros (c' & [= <- ->] & Hc')%lang_class_inv. congruence.
  - split.
    + intros (d & Hd & Hl). apply elem_of_app in Hd as [Hd | Hd].
      * apply list_elem_of_fmap in Hd as (d1 & -> & Hd1).
        apply lang_seq_inv in Hl as (s1 & s2 & -> & Hl1 & Hl2).
        change (c :: s1 ++ s2) with ((c :: s1) ++ s2).
        apply lang_seq; [| done]. apply IH1. eauto.
      * destruct (nullable r1) eqn:Hn; [| by apply elem_of_nil in Hd].
        change (c :: s) with ([] ++ c :: s).
        apply lang_seq; [by apply nullable_spec |]. apply IH2. eauto.
    + intros (s1 & s2 & Heq & Hl1 & Hl2)%lang_seq_inv.
      destruct s1 as [| c1 s1]; simpl in Heq.
      * subst s2. apply IH2 in Hl2 as (d & Hd & Hl).
        exists d. split; [| done]. apply elem_of_app. right.
        apply nullable_spec in Hl1. by rewrite Hl1.
      * injection Heq as -> ->. apply IH1 in Hl1 as (d & Hd & Hl).
        exists (Seq d r2). split; [| auto].
        apply elem_of_app. left. apply list_elem_of_fmap. eauto.
  - split.
    + intros (d & Hd & Hl). apply list_elem_of_fmap in Hd as (d1 & -> & Hd1).
      apply lang_seq_inv in Hl as (s1 & s2 & -> & Hl1 & Hl2).
      change (c :: s1 ++ s2) with ((c :: s1) ++ s2).
      apply lang_star_more; [| done]. apply IH. eauto.
    + intros H. apply lang_star_cons in H as (s1 & s2 & -> & Hl1 & Hl2).
      apply IH in Hl1 as (d & Hd & Hl).
      exists (Seq d (Star r)). split; [| auto].
      apply list_elem_of_fmap. eauto.
Qed.

Lemma matches_from_spec rs s :
  matches_from rs s = true <-> exists r, r ∈ rs /\ lang r s.
Proof.
  revert rs. induction s as [| c s IH]; intros rs; simpl.
  - rewrite existsb_exists. split.
    + intros (r & Hin & Hn). exists r. split; [by apply list_elem_of_In |].
      by apply nullable_spec.
    + intros (r & Hin & Hl). exists r. split; [by apply list_elem_of_In |].
      by apply nullable_spec.
  - rewrite IH. split.
    + intros (d & Hd & Hl). apply list_elem_of_In, in_flat_map in Hd as (r & Hr & Hd).
      exists r. split; [by apply list_elem_of_In |].
      apply deriv_spec. exists d. split; [by apply list_elem_of_In | done].
    + intros (r & Hr & Hl). apply deriv_spec in Hl as (d & Hd & Hl).
      exists d. split; [| done]. apply list_elem_of_In, in_flat_map.
      exists r. split; by apply list_elem_of_In.
Qed.

(** The matcher decides membership in the pattern's language. *)
Lemma full_match_spec r s : full_match r s = true <-> lang r s.
Proof.
  unfold full_match. rewrite matches_from_spec. split.
  - intros (r' & Hin & Hl). by apply list_elem_of_singleton in Hin as ->.
  - intros Hl. exists r. split; [by apply list_elem_of_singleton | done].
Qed.

Lemma lang_star_class negated atoms s :
  lang (Star (Class negated atoms)) s <->
  Forall (fun c => class_has negated atoms c = true) s.
Proof.
  split.
  - intros H. remember (Star (Class negated atoms)) as r eqn:Hr.
    induction H as [| | | | | r0 s1 s2 H1 _ H2 IH2]; try discriminate.
    + constructor.
    + injection Hr as ->.
      apply lang_class_inv in H1 as (c & -> & Hc). constructor; auto.
  - induction 1 as [| c s Hc _ IH].
    + auto.
    + change (c :: s) with ([c] ++ s). auto.
Qed.

(** A class under [+] matches the non-empty runs of its characters. *)
Lemma lang_plus_class negated atoms s :
  lang (Plus (Class negated atoms)) s <->
  s <> [] /\ Forall (fun c => class_has negated atoms c = true) s.
Proof.
  unfold Plus. split.
  - intros (s1 & s2 & -> & H1 & H2)%lang_seq_inv.
    apply lang_class_inv in H1 as (c & -> & Hc).
    apply lang_star_class in H2. split; [done | by constructor].
  - intros [Hne Hall]. destruct Hall as [| c s Hc Hall]; [done |].
    change (c :: s) with ([c] ++ s).
    apply lang_seq; [auto | by apply lang_star_class].
Qed.

Lemma no_space_no_at_class c :
  class_has true [ASpace; AChar 64] c = non_space_non_at c.
Proof.
  unfold class_has, non_space_non_at. simpl.
  destruct (is_space c), (c =? 64)%N; reflexivity.
Qed.

Lemma email_pattern_spec (s : jsstring) :
  full_match MailChannels.email_pattern s = true <-> email_shape non_space_non_at s.
Proof.
  rewrite full_match_spec. unfold MailChannels.email_pattern, MailChannels.no_space_no_at, email_shape.
  setoid_rewrite <- no_space_no_at_class. split.
  - intros (local & s1 & -> & Hl & H1)%lang_seq_inv.
    apply lang_seq_inv in H1 as (at_ & s2 & -> & Hat & H2).
    apply lang_chr_inv in Hat as ->.
    apply lang_seq_inv in H2 as (domain & s3 & -> & Hd & H3).
    apply lang_seq_inv in H3 as (dot & tld & -> & Hdot & Ht).
    apply lang_chr_inv in Hdot as ->.
    apply lang_plus_class in Hl as [? ?], Hd as [? ?], Ht as [? ?].
    exists local, domain, tld. done.
  - intros (local & domain & tld & -> & ? & ? & ? & ? & ? & ?).
    repeat (apply lang_seq; [by (apply lang_plus_class || constructor) |]).
    by apply lang_plus_class.
Qed.

(** ** Reading fields *)

Lemma Get_field_of data name : data <> JNull -> Get data name = Ok (field_of data name).
Proof. by destruct data. Qed.

Lemma nonblank_text_inv data name :
  nonblank_text (field_of data name) = true ->
  exists s, field_of data name = Some (JStr s)
    /\ Get data name = Ok (Some (JStr s)) /\ str_eqb (trim s) [] = false.
Proof.
  unfold nonblank_text. intros H.
  destruct (field_of data name) as [[| | | s | |] |] eqn:Hf; try discriminate.
  exists s. split; [done |]. split.
  - rewrite Get_field_of, Hf; [done |]. by intros ->.
  - by apply negb_true_iff.
Qed.

(** ** The loop over the required fields *)

Section RequiredLoop.

Import MailChannels.

(** All fields are non-blank text: the loop runs to its end. *)
Lemma missing_field_none data fields :
  forallb (fun f => nonblank_text (field_of data f)) fields = true ->
  missing_field data fields = Ok None.
Proof.
  induction fields as [| f fields IH]; simpl; [done |].
  intros [Hf Hrest]%andb_true_iff.
  apply nonblank_text_inv in Hf as (s & _ & -> & Hs). simpl.
  rewrite Hs. simpl. auto.
Qed.

(** The loop stops at the first field that is missing or blank, when the
    fields before it are non-blank text. *)
Lemma missing_field_first data before f after :
  data <> JNull ->
  forallb (fun g => nonblank_text (field_of data g)) before = true ->
  missing_or_blank (field_of data f) = true ->
  missing_field data (before ++ f :: after) = Ok (Some f).
Proof.
  intros Hdata Hbefore Hf.
  induction before as [| g before IH]; simpl.
  - rewrite Get_field_of by done. simpl.
    destruct (field_of data f) as [[| | | s | |] |]; simpl in *; try done.
    by rewrite Hf.
  - simpl in Hbefore. apply andb_true_iff in Hbefore as [Hg Hbefore].
    apply nonblank_text_inv in Hg as (s & _ & -> & Hs). simpl.
    rewrite Hs. simpl. auto.
Qed.

(** The loop throws at the first field that holds something else than
    text, when the fields before it are non-blank text. *)
Lemma missing_field_throws data before f after :
  forallb (fun g => nonblank_text (field_of data g)) before = true ->
  non_text (field_of data f) = true ->
  missing_field data (before ++ f :: after) = Err TypeError.
Proof.
  intros Hbefore Hf.
  induction before as [| g before IH]; simpl.
  - destruct data as [| | | | | props]; try done. simpl in *.
    by destruct (props !! f) as [[| | | | |] |].
  - simpl in Hbefore. apply andb_true_iff in Hbefore as [Hg Hbefore].
    apply nonblank_text_inv in Hg as (s & _ & -> & Hs). simpl.
    rewrite Hs. simpl. auto.
Qed.

(** The loop returns on every body, other than [null], whose required
    fields hold text or are missing. *)
Lemma missing_field_total data fields :
  data <> JNull ->
  forallb (fun f => text_or_missing (field_of data f)) fields = true ->
  exists found, missing_field data fields = Ok found.
Proof.
  intros Hdata. induction fields as [| f fields IH]; simpl; [eauto |].
  intros [Hf Hrest]%andb_true_iff. rewrite Get_field_of by done. simpl.
  destruct (field_of data f) as [[| | | s | |] |]; simpl in *; try done; eauto.
  destruct (str_eqb (trim s) []); simpl; eauto.
Qed.

(** When the loop runs to its end, all fields are non-blank text. *)
Lemma missing_field_none_inv data fields :
  missing_field data fields = Ok None ->
  forallb (fun f => nonblank_text (field_of data f)) fields = true.
Proof.
  induction fields as [| f fields IH]; simpl; [done |].
  destruct data as [| | | | | props]; simpl; try done.
  destruct (props !! f) as [[| | | s | |] |]; simpl; try done.
  destruct (str_eqb (trim s) []); simpl; [done | auto].
Qed.

End RequiredLoop.

(** ** Rendering *)

Lemma template_prints parts :
  Forall part_prints parts -> exists s, template parts = Ok s.
Proof.
  induction 1 as [| p parts Hp _ [s IH]]; [by exists [] |].
  destruct p as [t | expr]; simpl.
  - rewrite IH. simpl. eauto.
  - destruct Hp as (v & -> & Hv). simpl. unfold printable in Hv.
    destruct (ToString v); [| done]. simpl. rewrite IH. simpl. eauto.
Qed.

Lemma nonblank_text_printable v : nonblank_text v = true -> printable v = true.
Proof. by destruct v as [[| | | | |] |]. Qed.

(** Text, and a missing field, can be printed. *)
Lemma text_or_missing_printable v : text_or_missing v = true -> printable v = true.
Proof. by destruct v as [[| | | | |] |]. Qed.

Lemma or_else_printable v text :
  printable v = true -> printable (or_else v (Some (JStr text))) = true.
Proof. unfold or_else. by destruct (truthy v). Qed.

(** A required field of a validated payload, as a template substitution. *)
Lemma required_field_prints data name :
  nonblank_text (field_of data name) = true ->
  part_prints (Subst (Get data name)).
Proof.
  intros H. destruct (nonblank_text_inv _ _ H) as (s & Hf & HG & _).
  exists (Some (JStr s)). by rewrite HG.
Qed.

(** An optional field with its default, as a template substitution. *)
Lemma optional_field_prints data name text :
  data <> JNull ->
  printable (field_of data name) = true ->
  part_prints (Subst (or_default (Get data name) text)).
Proof.
  intros Hdata H. rewrite Get_field_of by done. simpl.
  eexists. split; [done |]. by apply or_else_printable.
Qed.

(** Every part of a template over a validated payload prints. *)
Ltac parts_print :=
  repeat (apply Forall_cons; split);
  first [ exact I | by apply required_field_prints
        | by apply optional_field_prints | by apply Forall_nil ].

Lemma passes_validation_validated pattern data :
  passes_validation pattern data = true -> validated pattern data.
Proof.
  unfold passes_validation, validation_order. simpl.
  rewrite !andb_true_iff. intros [(H1 & H2 & H3 & H4 & H5 & H6 & _) He].
  split; try done.
  - intros ->. done.
  - destruct (nonblank_text_inv _ _ H3) as (s & Hf & HG & _).
    rewrite Hf in He. eauto.
Qed.

Lemma buildEmailHtml_prints pattern data :
  fully_valid pattern data = true -> exists html, buildEmailHtml data = Ok html.
Proof.
  unfold fully_valid. rewrite !andb_true_iff. intros [[Hv Hp] Hm].
  apply passes_validation_validated in Hv as [].
  apply template_prints.
  parts_print.
Qed.

Lemma buildConfirmationHtml_prints pattern data :
  passes_validation pattern data = true ->
  exists html, buildConfirmationHtml data = Ok html.
Proof.
  intros [] %passes_validation_validated.
  apply template_prints.
  parts_print.
Qed.

(** ** The outbound calls of a valid enquiry *)

Lemma method_post_not_options : str_eqb (lit "POST") (lit "OPTIONS") = false.
Proof. reflexivity. Qed.

Lemma resend_calls data apiKey toEmail :
  fully_valid Resend.email_pattern data = true ->
  exists first second,
    Resend.enquiry_call data apiKey toEmail = Ok first
    /\ Resend.confirmation_call data apiKey = Ok second.
Proof.
  intros Hfull.
  destruct (buildEmailHtml_prints _ _ Hfull) as [html1 Hhtml1].
  unfold fully_valid in Hfull. apply andb_true_iff in Hfull as [Hfull _].
  apply andb_true_iff in Hfull as [Hv _].
  destruct (buildConfirmationHtml_prints _ _ Hv) as [html2 Hhtml2].
  apply passes_validation_validated in Hv as [].
  destruct v_address0 as (e & He & _).
  unfold Resend.enquiry_call, Resend.confirmation_call.
  rewrite He, Hhtml1, Hhtml2.
  destruct (template_prints
    [ Text (lit "Booking Enquiry: ");
      Subst (Get data (lit "first_name")); Text (lit " ");
      Subst (Get data (lit "last_name"));
      Text (lit " " ++ em_dash ++ lit " ");
      Subst (Get data (lit "arrival_date")); Text (lit " to ");
      Subst (Get data (lit "departure_date")) ]) as [subject ->].
  { parts_print. }
  cbn [rbind]. eauto.
Qed.

Lemma mc_calls data toEmail :
  fully_valid MailChannels.email_pattern data = true ->
  exists first second,
    MailChannels.enquiry_call data toEmail = Ok first
    /\ MailChannels.confirmation_call data = Ok second.
Proof.
  intros Hfull.
  destruct (buildEmailHtml_prints _ _ Hfull) as [html1 Hhtml1].
  unfold fully_valid in Hfull. apply andb_true_iff in Hfull as [Hfull _].
  apply andb_true_iff in Hfull as [Hv _].
  destruct (buildConfirmationHtml_prints _ _ Hv) as [html2 Hhtml2].
  apply passes_validation_validated in Hv as [].
  destruct v_address0 as (e & He & _).
  unfold MailChannels.enquiry_call, MailChannels.confirmation_call.
  rewrite He, Hhtml1, Hhtml2.
  destruct (template_prints
    [ Subst (Get data (lit "first_name")); Text (lit " ");
      Subst (Get data (lit "last_name")) ]) as [name ->].
  { parts_print. }
  destruct (template_prints
    [ Text (lit "Booking Enquiry: ");
      Subst (Get data (lit "first_name")); Text (lit " ");
      Subst (Get data (lit "last_name"));
      Text (lit " " ++ em_dash ++ lit " ");
      Subst (Get data (lit "arrival_date")); Text (lit " to ");
      Subst (Get data (lit "departure_date")) ]) as [subject ->].
  { parts_print. }
  cbn [rbind]. eauto.
Qed.

(** ** The runs of the handlers *)

(** A validated payload gets through the field loop and the address
    test. *)
Lemma validated_checks pattern data :
  passes_validation pattern data = true ->
  MailChannels.missing_field data MailChannels.required = Ok None
  /\ (let? email := Get data (lit "email") in RegExp_test pattern email)%result = Ok true.
Proof.
  intros Hv. split.
  - apply missing_field_none. unfold passes_validation in Hv.
    by apply andb_true_iff in Hv as [? _].
  - apply passes_validation_validated in Hv as [].
    destruct v_address0 as (e & -> & He).
    unfold RegExp_test. cbn [rbind ToString ToString_json]. by rewrite He.
Qed.

(** What the MailChannels handler does with a fully valid enquiry, for
    every provider. *)
Lemma mc_run_valid request env provider data :
  method request = lit "POST" ->
  json_body request = Some data ->
  fully_valid MailChannels.email_pattern data = true ->
  exists first second,
    invoke provider (MailChannels.fetch request env) =
      match provider [] first with
      | Rejected => ([ReadBody; Sent first], Thrown FetchFailed)
      | Fulfilled r1 =>
          if ok r1 then
            match provider [first] second with
            | Rejected => ([ReadBody; Sent first; Sent second], Thrown FetchFailed)
            | Fulfilled _ =>
                ([ReadBody; Sent first; Sent second],
                 Returned (MailChannels.jsonResponse
                   (object [ (lit "success", Some (JBool true));
                             (lit "message", str (lit
                                "Enquiry received. We will respond within 24 hours.")) ])
                   200 request))
            end
          else
            ([ReadBody; Sent first; Logged [lit "MailChannels error:"; text r1]],
             Returned (MailChannels.jsonResponse
               (object [(lit "error", str (lit
                  "Failed to send enquiry. Please try again or contact us directly."))])
               500 request))
      end.
Proof.
  intros Hm Hb Hfull.
  destruct (mc_calls data (or_text (TO_EMAIL env) (lit "info@chalet-josephine.com")) Hfull)
    as (first & second & Hfirst & Hsecond).
  exists first, second.
  assert (Hv : passes_validation MailChannels.email_pattern data = true).
  { unfold fully_valid in Hfull. by apply andb_true_iff in Hfull as [[? _]%andb_true_iff _]. }
  destruct (validated_checks _ _ Hv) as [Hloop Htest].
  unfold invoke, MailChannels.fetch.
  rewrite Hm, method_post_not_options, str_eqb_refl.
  cbn [negb run app]. rewrite Hb, Hloop. cbn [lift]. rewrite Htest. cbn [lift negb].
  rewrite Hfirst. cbn [lift run app].
  change (sends [ReadBody]) with (@nil OutCall).
  destruct (provider [] first) as [r1 |]; [| done].
  destruct (ok r1); cbn [negb run app]; [| done].
  rewrite Hsecond. cbn [lift run app].
  change (sends [ReadBody; Sent first]) with [first].
  by destruct (provider [first] second).
Qed.

(** The two worker files share their text up to the address test. *)
Lemma resend_missing_field : Resend.missing_field = MailChannels.missing_field.
Proof. reflexivity. Qed.

Lemma resend_required : Resend.required = MailChannels.required.
Proof. reflexivity. Qed.

Lemma resend_email_pattern : Resend.email_pattern = MailChannels.email_pattern.
Proof. reflexivity. Qed.

Lemma resend_jsonResponse : Resend.jsonResponse = MailChannels.jsonResponse.
Proof. reflexivity. Qed.

Lemma resend_corsHeaders : Resend.corsHeaders = MailChannels.corsHeaders.
Proof. reflexivity. Qed.

(** Unfolds a handler on a POST request up to the settled body. *)
Ltac run_post Hm Hb :=
  unfold invoke, MailChannels.fetch, Resend.fetch;
  rewrite Hm, method_post_not_options, str_eqb_refl;
  cbn [negb run app]; rewrite Hb;
  rewrite ?resend_missing_field, ?resend_required, ?resend_email_pattern,
    ?resend_jsonResponse.

(** What both handlers do with a POST body that does not get through
    validation: the outcome is decided by the field loop and the address
    test alone. *)
Lemma run_rejected fetch request env provider data :
  fetch = MailChannels.fetch \/ fetch = Resend.fetch ->
  method request = lit "POST" ->
  json_body request = Some data ->
  passes_validation MailChannels.email_pattern data = false ->
  invoke provider (fetch request env) =
    ([ReadBody],
     match MailChannels.missing_field data MailChannels.required with
     | Err e => Thrown e
     | Ok (Some field) =>
         Returned (MailChannels.jsonResponse
           (object [(lit "error", str (lit "Missing required field: " ++ field))])
           400 request)
     | Ok None =>
         match (let? email := Get data (lit "email") in
                RegExp_test MailChannels.email_pattern email)%result with
         | Err e => Thrown e
         | Ok _ =>
             Returned (MailChannels.jsonResponse
               (object [(lit "error", str (lit "Invalid email address"))]) 400 request)
         end
     end).
Proof.
  intros Hfetch Hm Hb Hv.
  assert (Hcheck :
    MailChannels.missing_field data MailChannels.required = Ok None ->
    (let? email := Get data (lit "email") in
     RegExp_test MailChannels.email_pattern email)%result <> Ok true).
  { intros Hloop Htest. apply missing_field_none_inv in Hloop as Hall.
    unfold passes_validation in Hv. change MailChannels.required with validation_order in Hall.
    rewrite Hall in Hv. unfold validation_order in Hall.
    cbn [forallb] in Hall. rewrite !andb_true_iff in Hall.
    destruct Hall as (_ & _ & (s & Hf & HG & _)%nonblank_text_inv & _).
    rewrite Hf in Hv. rewrite HG in Htest.
    unfold RegExp_test in Htest. cbn [rbind ToString ToString_json] in Htest.
    cbn [andb] in Hv. congruence. }
  destruct Hfetch as [-> | ->]; run_post Hm Hb;
    (destruct (MailChannels.missing_field data MailChannels.required)
       as [[field |] | e]; cbn [lift run]; [done | | done];
     destruct (let? email := Get data (lit "email") in
               RegExp_test MailChannels.email_pattern email)%result
       as [[|] | e]; cbn [lift run negb]; [by destruct Hcheck | done | done]).
Qed.

(** What the Resend handler does with a fully valid enquiry when its
    credential is configured, for every provider. *)
Lemma resend_run_valid request env provider data apiKey :
  method request = lit "POST" ->
  json_body request = Some data ->
  fully_valid Resend.email_pattern data = true ->
  RESEND_API_KEY env = Some apiKey ->
  apiKey <> [] ->
  exists first second,
    invoke provider (Resend.fetch request env) =
      match provider [] first with
      | Rejected => ([ReadBody; Sent first], Thrown FetchFailed)
      | Fulfilled r1 =>
          if ok r1 then
            match provider [first] second with
            | Rejected => ([ReadBody; Sent first; Sent second], Thrown FetchFailed)
            | Fulfilled _ =>
                ([ReadBody; Sent first; Sent second],
                 Returned (Resend.jsonResponse
                   (object [ (lit "success", Some (JBool true));
                             (lit "message", str (lit
                                "Enquiry received. We will respond within 24 hours.")) ])
                   200 request))
            end
          else
            ([ReadBody; Sent first; Logged [lit "Resend error:"; text r1]],
             Returned (Resend.jsonResponse
               (object [(lit "error", str (lit
                  "Failed to send enquiry. Please try again or contact us directly."))])
               500 request))
      end.
Proof.
  intros Hm Hb Hfull Hkey Hne.
  destruct (resend_calls data apiKey
              (or_text (TO_EMAIL env) (lit "info@chalet-josephine.com")) Hfull)
    as (first & second & Hfirst & Hsecond).
  exists first, second.
  assert (Hv : passes_validation MailChannels.email_pattern data = true).
  { unfold fully_valid in Hfull. by apply andb_true_iff in Hfull as [[? _]%andb_true_iff _]. }
  destruct (validated_checks _ _ Hv) as [Hloop Htest].
  run_post Hm Hb. rewrite Hloop. cbn [lift]. rewrite Htest. cbn [lift negb].
  rewrite Hkey. apply str_eqb_neq in Hne as ->.
  rewrite Hfirst. cbn [lift run app].
  change (sends [ReadBody]) with (@nil OutCall).
  destruct (provider [] first) as [r1 |]; [| done].
  destruct (ok r1); cbn [negb run app]; [| done].
  rewrite Hsecond. cbn [lift run app].
  change (sends [ReadBody; Sent first]) with [first].
  by destruct (provider [first] second).
Qed.

(** What the Resend handler does with a validated enquiry when its
    credential is not set, or is the empty text. *)
Lemma resend_run_unconfigured request env provider data :
  method request = lit "POST" ->
  json_body request = Some data ->
  passes_validation Resend.email_pattern data = true ->
  or_text (RESEND_API_KEY env) [] = [] ->
  invoke provider (Resend.fetch request env) =
    ([ReadBody],
     Returned (Resend.jsonResponse
       (object [(lit "error", str (lit "Email service not configured"))]) 500 request)).
Proof.
  intros Hm Hb Hv Hkey. rewrite resend_email_pattern in Hv.
  destruct (validated_checks _ _ Hv) as [Hloop Htest].
  run_post Hm Hb. rewrite Hloop. cbn [lift]. rewrite Htest. cbn [lift negb].
  destruct (RESEND_API_KEY env) as [apiKey |]; [| done].
  simpl in Hkey. destruct (str_eqb apiKey []) eqn:Hempty; [done |].
  subst apiKey. by rewrite str_eqb_refl in Hempty.
Qed.

(** ** CORS headers *)

Lemma canonical_site_echoed : echoed canonical_site.
Proof. by left. Qed.

Lemma empty_not_echoed : ~ echoed [].
Proof.
  intros [Heq | [front Heq]]; [discriminate |].
  symmetry in Heq. by apply app_eq_nil in Heq as [_ ?].
Qed.

(** The handlers' test on the Origin is the predicate [echoed]. *)
Lemma allowed_echoed (o : jsstring) :
  str_eqb o MailChannels.ALLOWED_ORIGIN || endsWith o (lit ".chalet-josephine.com") = true
  <-> echoed o.
Proof.
  rewrite orb_true_iff, str_eqb_eq, endsWith_spec. reflexivity.
Qed.

Lemma corsHeaders_allow_origin request :
  exists value,
    MailChannels.corsHeaders request !! lit "Access-Control-Allow-Origin" = Some value
    /\ allow_origin_is request value.
Proof.
  unfold MailChannels.corsHeaders. cbn [list_to_map foldr uncurry].
  rewrite lookup_insert_eq. eexists. split; [reflexivity |].
  unfold allow_origin_is, origin_of.
  destruct (headers_get request (lit "Origin")) as [o |]; [| reflexivity].
  cbn [or_text]. destruct (str_eqb o []) eqn:Hempty.
  - apply str_eqb_eq in Hempty as ->. split; [| done].
    intros H. by destruct empty_not_echoed.
  - destruct (str_eqb o MailChannels.ALLOWED_ORIGIN
              || endsWith o (lit ".chalet-josephine.com")) eqn:Hallowed.
    + split; [done |]. intros H. destruct H. by apply allowed_echoed.
    + split; [| done]. intros H%allowed_echoed. congruence.
Qed.

Lemma jsonResponse_allow_origin b code request :
  headers (MailChannels.jsonResponse b code request) !! lit "Access-Control-Allow-Origin"
  = MailChannels.corsHeaders request !! lit "Access-Control-Allow-Origin".
Proof.
  destruct (corsHeaders_allow_origin request) as (value & Hvalue & _).
  cbn [MailChannels.jsonResponse headers]. rewrite Hvalue.
  by apply lookup_union_Some_l.
Qed.

(** A returned value of a run is one the task can return. *)
Lemma run_returns_only {A} (Q : A -> Prop) provider (t : Task A) trace trace' a :
  returns_only Q t -> run provider t trace = (trace', Returned a) -> Q a.
Proof.
  revert trace. induction t as [b | e | request k IH | call k IH | args k IH];
    intros trace Hall Hrun; simpl in *.
  - by injection Hrun as _ <-.
  - discriminate.
  - eauto.
  - destruct (provider (sends trace) call); [eauto | discriminate].
  - eauto.
Qed.

Lemma preflight_carries_cors request :
  carries_cors request
    {| status := 200; headers := MailChannels.corsHeaders request; body := null |}.
Proof. reflexivity. Qed.

Lemma jsonResponse_carries_cors request b code :
  carries_cors request (MailChannels.jsonResponse b code request).
Proof. apply jsonResponse_allow_origin. Qed.

Ltac cors_leaves :=
  repeat match goal with
  | |- returns_only _ (Return (MailChannels.jsonResponse _ _ _)) =>
      apply jsonResponse_carries_cors
  | |- carries_cors _ (MailChannels.jsonResponse _ _ _) =>
      apply jsonResponse_carries_cors
  | |- returns_only _ (Return _) => apply preflight_carries_cors
  | |- returns_only _ (Throw _) => exact I
  | |- returns_only _ (AwaitJson _ _) => cbn [returns_only]; intro
  | |- returns_only _ (AwaitFetch _ _) => cbn [returns_only]; intro
  | |- returns_only _ (ConsoleError _ _) => cbn [returns_only]
  | |- returns_only _ (lift ?x _) => destruct x; cbn [lift]
  | |- returns_only _ (if ?b then _ else _) => destruct b
  | |- returns_only _ (match ?x with _ => _ end) => destruct x
  end.

Lemma mc_fetch_carries_cors request env :
  returns_only (carries_cors request) (MailChannels.fetch request env).
Proof. unfold MailChannels.fetch. cors_leaves. Qed.

Lemma resend_fetch_carries_cors request env :
  returns_only (carries_cors request) (Resend.fetch request env).
Proof.
  unfold Resend.fetch. rewrite resend_jsonResponse, resend_corsHeaders. cors_leaves.
Qed.

(** An origin that is a direct subdomain, of the canonical site or of
    its parent domain, is echoed. *)
Lemma direct_subdomain_echoed host o :
  host = lit "www.chalet-josephine.com" \/ host = lit "chalet-josephine.com" ->
  direct_subdomain host o = true -> echoed o.
Proof.
  intros Hhost. unfold direct_subdomain. rewrite !andb_true_iff.
  intros [[[_ _] [front ->]%endsWith_spec] _]. right.
  destruct Hhost as [-> | ->].
  - exists (front ++ lit ".www"). by rewrite <- app_assoc.
  - by exists front.
Qed.

(** C2 (amended): on every response either handler returns, whatever the
    path (preflight, 405, 400, 500 or 200), [Access-Control-Allow-Origin] is
    the request's Origin when that Origin is the canonical site or any text
    ending in [.chalet-josephine.com], and the canonical site for every
    other Origin and when there is none; in particular the canonical site
    and its direct subdomains are echoed. *)
Theorem allow_origin_on_every_response request env provider trace r :
  invoke provider (MailChannels.fetch request env) = (trace, Returned r)
  \/ invoke provider (Resend.fetch request env) = (trace, Returned r) ->
  exists value,
    headers r !! lit "Access-Control-Allow-Origin" = Some value
    /\ allow_origin_is request value
    /\ (forall o, origin_of request = Some o ->
          o = canonical_site
          \/ direct_subdomain (lit "www.chalet-josephine.com") o = true ->
          value = o).
Proof.
  intros Hrun.
  assert (Hcors : carries_cors request r).
  { destruct Hrun as [Hrun | Hrun].
    - eapply run_returns_only; [apply mc_fetch_carries_cors | exact Hrun].
    - eapply run_returns_only; [apply resend_fetch_carries_cors | exact Hrun]. }
  destruct (corsHeaders_allow_origin request) as (value & Hvalue & His).
  exists value. unfold carries_cors in Hcors. rewrite Hcors. split; [done |].
  split; [done |]. intros o Ho Hclaim.
  unfold allow_origin_is in His. rewrite Ho in His. apply His.
  destruct Hclaim as [-> | Hsub]; [apply canonical_site_echoed |].
  eapply direct_subdomain_echoed; [by left | done].
Qed.

(** The theorem at a preflight whose Origin ends with the site's domain. *)
Lemma allow_origin_on_every_response_example :
  exists value,
    headers suffix_preflight_response !! lit "Access-Control-Allow-Origin" = Some value
    /\ allow_origin_is suffix_preflight value.
Proof.
  destruct (allow_origin_on_every_response
              suffix_preflight bare_env accepting [] suffix_preflight_response)
    as (value & Hvalue & His & _).
  - left. vm_compute. reflexivity.
  - exists value. split; assumption.
Defined.

(** C2, as worded, fails: an Origin that merely ends with
    [.chalet-josephine.com] is echoed, although it is neither the canonical
    site nor a direct subdomain, of it or of its parent domain. *)
Lemma suffix_origin_is_echoed :
  direct_subdomain (lit "www.chalet-josephine.com") suffix_origin = false
  /\ direct_subdomain (lit "chalet-josephine.com") suffix_origin = false
  /\ worded_allow_origin suffix_preflight = canonical_site
  /\ invoke accepting (MailChannels.fetch suffix_preflight bare_env)
     = ([], Returned suffix_preflight_response)
  /\ invoke accepting (Resend.fetch suffix_preflight bare_env)
     = ([], Returned suffix_preflight_response)
  /\ headers suffix_preflight_response !! lit "Access-Control-Allow-Origin"
     = Some suffix_origin
  /\ headers suffix_preflight_response !! lit "Access-Control-Allow-Origin"
     <> Some (worded_allow_origin suffix_preflight).
Proof.
  split; [vm_compute; reflexivity |].
  split; [vm_compute; reflexivity |].
  split; [vm_compute; reflexivity |].
  split; [vm_compute; reflexivity |].
  split; [vm_compute; reflexivity |].
  split; [vm_compute; reflexivity |].
  vm_compute. discriminate.
Qed.

(** ** The preflight *)

(** C8: an OPTIONS request is answered at once, before the body is read
    and before any check, whatever the body is: the response has no body,
    the default status, and the three CORS headers and no other. *)
Theorem preflight_answer request env provider :
  method request = lit "OPTIONS" ->
  exists r,
    invoke provider (MailChannels.fetch request env) = ([], Returned r)
    /\ invoke provider (Resend.fetch request env) = ([], Returned r)
    /\ body r = null
    /\ status r = 200%N
    /\ dom (headers r)
       = {[ lit "Access-Control-Allow-Origin"; lit "Access-Control-Allow-Methods";
            lit "Access-Control-Allow-Headers" ]}
    /\ headers r !! lit "Access-Control-Allow-Methods" = Some (lit "POST, OPTIONS")
    /\ headers r !! lit "Access-Control-Allow-Headers" = Some (lit "Content-Type")
    /\ exists value,
         headers r !! lit "Access-Control-Allow-Origin" = Some value
         /\ allow_origin_is request value.
Proof.
  intros Hm.
  exists {| status := 200; headers := MailChannels.corsHeaders request; body := null |}.
  unfold invoke, MailChannels.fetch, Resend.fetch. rewrite Hm, str_eqb_refl.
  split; [reflexivity |]. split; [reflexivity |].
  split; [reflexivity |]. split; [reflexivity |].
  split; [| split; [reflexivity | split; [reflexivity |]]].
  - cbn [headers MailChannels.corsHeaders list_to_map foldr uncurry].
    rewrite !dom_insert_L, dom_empty_L. set_solver.
  - apply corsHeaders_allow_origin.
Qed.

(** The preflight with a body that is no JSON. *)
Lemma preflight_answer_example :
  exists r,
    invoke refusing (MailChannels.fetch suffix_preflight bare_env) = ([], Returned r)
    /\ invoke refusing (Resend.fetch suffix_preflight bare_env) = ([], Returned r)
    /\ body r = null.
Proof.
  destruct (preflight_answer suffix_preflight bare_env refusing eq_refl)
    as (r & Hmc & Hresend & Hbody & _).
  exists r. split; [assumption |]. split; assumption.
Defined.

(** ** Missing fields *)

Lemma answers_jsonResponse trace b code request :
  answers (trace, Returned (MailChannels.jsonResponse b code request)) code (JSON_stringify b).
Proof. eexists. split; [reflexivity |]. split; reflexivity. Qed.

(** A run gives one answer. *)
Lemma answers_unique result code code' b b' :
  answers result code b -> answers result code' b' -> code = code' /\ b = b'.
Proof.
  intros (r & Hr & <- & <-) (r' & Hr' & <- & <-).
  rewrite Hr in Hr'. by injection Hr' as <-.
Qed.

(** Two error bodies with the same text carry the same message. *)
Lemma error_body_inj message message' :
  error_body message = error_body message' -> message = message'.
Proof.
  intros H.
  apply (f_equal (fun b => match b with
                           | JSON_stringify v => field_of v (lit "error")
                           | null => None
                           end)) in H.
  unfold error_body, object in H.
  cbn [omap list_omap fmap option_fmap option_map list_to_map foldr uncurry str
       field_of] in H.
  rewrite !lookup_insert_eq in H. by injection H.
Qed.

(** C1 (amended): a POST whose JSON body, other than [null], lacks or
    leaves blank one of the six required fields, the required fields ahead
    of the first such field holding text, is answered with status 400 and
    the body [{error: "Missing required field: <name>"}] naming that first
    field, and no other field. *)
Theorem missing_field_reported request env provider data before f after :
  method request = lit "POST" ->
  json_body request = Some data ->
  data <> JNull ->
  validation_order = before ++ f :: after ->
  forallb (fun g => nonblank_text (field_of data g)) before = true ->
  missing_or_blank (field_of data f) = true ->
  (answers (invoke provider (MailChannels.fetch request env))
     400 (error_body (lit "Missing required field: " ++ f))
   /\ answers (invoke provider (Resend.fetch request env))
     400 (error_body (lit "Missing required field: " ++ f)))
  /\ (forall g code, g <> f ->
        ~ answers (invoke provider (MailChannels.fetch request env))
            code (error_body (lit "Missing required field: " ++ g))
        /\ ~ answers (invoke provider (Resend.fetch request env))
              code (error_body (lit "Missing required field: " ++ g))).
Proof.
  intros Hm Hb Hdata Horder Hbefore Hf.
  assert (Hloop : MailChannels.missing_field data MailChannels.required = Ok (Some f)).
  { change MailChannels.required with validation_order. rewrite Horder.
    by apply missing_field_first. }
  assert (Hv : passes_validation MailChannels.email_pattern data = false).
  { destruct (passes_validation _ data) eqn:Hv; [| done].
    destruct (validated_checks _ _ Hv) as [Hnone _]. congruence. }
  assert (Hanswers :
    answers (invoke provider (MailChannels.fetch request env))
      400 (error_body (lit "Missing required field: " ++ f))
    /\ answers (invoke provider (Resend.fetch request env))
      400 (error_body (lit "Missing required field: " ++ f))).
  { split.
    - rewrite (run_rejected MailChannels.fetch request env provider data) by auto.
      rewrite Hloop. apply answers_jsonResponse.
    - rewrite (run_rejected Resend.fetch request env provider data) by auto.
      rewrite Hloop. apply answers_jsonResponse. }
  split; [exact Hanswers |]. destruct Hanswers as [Hmc Hresend].
  intros g code Hg. split; intros Hother.
  - destruct (answers_unique _ _ _ _ _ Hmc Hother) as [_ Heq].
    apply error_body_inj, app_inv_head in Heq. congruence.
  - destruct (answers_unique _ _ _ _ _ Hresend Hother) as [_ Heq].
    apply error_body_inj, app_inv_head in Heq. congruence.
Qed.

(** An enquiry without its e-mail address. *)
Lemma missing_field_reported_example :
  answers (invoke accepting (MailChannels.fetch (post (enquiry_without (lit "email"))) bare_env))
    400 (error_body (lit "Missing required field: email"))
  /\ answers (invoke accepting (Resend.fetch (post (enquiry_without (lit "email"))) bare_env))
    400 (error_body (lit "Missing required field: email")).
Proof.
  apply (missing_field_reported _ bare_env accepting (enquiry_without (lit "email"))
           [lit "first_name"; lit "last_name"] (lit "email")
           [lit "arrival_date"; lit "departure_date"; lit "guests"]).
  - reflexivity.
  - reflexivity.
  - discriminate.
  - reflexivity.
  - vm_compute. reflexivity.
  - vm_compute. reflexivity.
Defined.

(** C1, as worded, fails: with a number under [first_name], the first
    field that is missing or blank is [last_name], yet neither handler
    answers, the loop throws on the number; and on the body [null], which
    has none of the fields, the loop throws at once. *)
Lemma number_ahead_of_missing_field :
  (validation_order
   = [lit "first_name"] ++ lit "last_name"
     :: [lit "email"; lit "arrival_date"; lit "departure_date"; lit "guests"]
   /\ forallb (fun g => negb (missing_or_blank (field_of numbered_enquiry g)))
        [lit "first_name"] = true
   /\ missing_or_blank (field_of numbered_enquiry (lit "last_name")) = true
   /\ invoke accepting (MailChannels.fetch (post numbered_enquiry) bare_env)
      = ([ReadBody], Thrown TypeError)
   /\ invoke accepting (Resend.fetch (post numbered_enquiry) bare_env)
      = ([ReadBody], Thrown TypeError)
   /\ ~ answers (invoke accepting (MailChannels.fetch (post numbered_enquiry) bare_env))
          400 (error_body (lit "Missing required field: last_name")))
  /\ (missing_or_blank (field_of JNull (lit "first_name")) = true
      /\ invoke accepting (MailChannels.fetch (post JNull) bare_env)
         = ([ReadBody], Thrown TypeError)
      /\ invoke accepting (Resend.fetch (post JNull) bare_env)
         = ([ReadBody], Thrown TypeError)
      /\ ~ answers (invoke accepting (MailChannels.fetch (post JNull) bare_env))
             400 (error_body (lit "Missing required field: first_name"))).
Proof.
  split.
  - split; [reflexivity |].
    split; [vm_compute; reflexivity |]. split; [vm_compute; reflexivity |].
    split; [vm_compute; reflexivity |]. split; [vm_compute; reflexivity |].
    intros (r & Hr & _). vm_compute in Hr. discriminate.
  - split; [reflexivity |].
    split; [vm_compute; reflexivity |]. split; [vm_compute; reflexivity |].
    intros (r & Hr & _). vm_compute in Hr. discriminate.
Qed.

(** ** Fields that hold no text *)

(** Both handlers throw at the first required field that holds something
    else than text, when the fields before it are non-blank text. *)
Lemma non_text_field_throws request env provider data before f after :
  method request = lit "POST" ->
  json_body request = Some data ->
  validation_order = before ++ f :: after ->
  forallb (fun g => nonblank_text (field_of data g)) before = true ->
  non_text (field_of data f) = true ->
  invoke provider (MailChannels.fetch request env) = ([ReadBody], Thrown TypeError)
  /\ invoke provider (Resend.fetch request env) = ([ReadBody], Thrown TypeError).
Proof.
  intros Hm Hb Horder Hbefore Hf.
  assert (Hloop : MailChannels.missing_field data MailChannels.required = Err TypeError).
  { change MailChannels.required with validation_order. rewrite Horder.
    by apply missing_field_throws. }
  assert (Hv : passes_validation MailChannels.email_pattern data = false).
  { destruct (passes_validation _ data) eqn:Hv; [| done].
    destruct (validated_checks _ _ Hv) as [Hnone _]. congruence. }
  split.
  - rewrite (run_rejected MailChannels.fetch request env provider data) by auto. by rewrite Hloop.
  - rewrite (run_rejected Resend.fetch request env provider data) by auto. by rewrite Hloop.
Qed.

(** C9: there is a POST whose body is JSON with all six required fields
    present, [guests] given as a number, on which the field check throws a
    TypeError in both handlers, so that no response is returned; and the
    field check returns on every body, other than [null], whose required
    fields all hold text or are missing. *)
Theorem validation_total_only_on_text :
  (exists request data,
     method request = lit "POST"
     /\ json_body request = Some data
     /\ forallb (present data) validation_order = true
     /\ (exists text, field_of data (lit "guests") = Some (JNum text))
     /\ forall env provider,
          invoke provider (MailChannels.fetch request env) = ([ReadBody], Thrown TypeError)
          /\ invoke provider (Resend.fetch request env) = ([ReadBody], Thrown TypeError))
  /\ (forall data,
        data <> JNull ->
        forallb (fun f => text_or_missing (field_of data f)) validation_order = true ->
        exists found,
          MailChannels.missing_field data MailChannels.required = Ok found
          /\ Resend.missing_field data Resend.required = Ok found).
Proof.
  split.
  - exists (post counted_enquiry), counted_enquiry.
    split; [reflexivity |]. split; [reflexivity |].
    split; [vm_compute; reflexivity |].
    split; [exists (lit "4"); vm_compute; reflexivity |].
    intros env provider.
    apply (non_text_field_throws _ env provider counted_enquiry
             [lit "first_name"; lit "last_name"; lit "email";
              lit "arrival_date"; lit "departure_date"]
             (lit "guests") []);
      first [ reflexivity | vm_compute; reflexivity ].
  - intros data Hdata Hall.
    destruct (missing_field_total data validation_order Hdata Hall) as [found Hfound].
    exists found. split; exact Hfound.
Qed.

(** ** The two variants before any provider call *)

(** C10: on every request that ends before a provider call (the
    preflight, another method than POST, a body that is no JSON, a missing
    field, an address that fails the test; also a field check that
    throws), the two variants do the same, whatever their environments and
    providers: the same effects and the same response, status, body and
    headers alike; and no call is sent. *)
Theorem variants_agree_before_provider request env env' provider provider' :
  stops_before_provider MailChannels.email_pattern request = true ->
  invoke provider (MailChannels.fetch request env)
  = invoke provider' (Resend.fetch request env')
  /\ sends (invoke provider (MailChannels.fetch request env)).1 = [].
Proof.
  unfold stops_before_provider. intros Hstop.
  destruct (str_eqb (method request) (lit "OPTIONS")) eqn:Hoptions.
  { unfold invoke, MailChannels.fetch, Resend.fetch. rewrite Hoptions. by split. }
  destruct (str_eqb (method request) (lit "POST")) eqn:Hpost.
  2: { unfold invoke, MailChannels.fetch, Resend.fetch.
       rewrite Hoptions, Hpost. by split. }
  apply str_eqb_eq in Hpost. cbn [orb negb] in Hstop.
  destruct (json_body request) as [data |] eqn:Hbody.
  - apply negb_true_iff in Hstop.
    rewrite (run_rejected MailChannels.fetch request env provider data) by auto.
    rewrite (run_rejected Resend.fetch request env' provider' data) by auto.
    by split.
  - unfold invoke, MailChannels.fetch, Resend.fetch.
    rewrite Hpost, method_post_not_options, str_eqb_refl.
    cbn [negb run app]. rewrite Hbody. by split.
Qed.

(** A request with another method, handled by both variants under
    different environments and providers. *)
Lemma variants_agree_before_provider_example :
  invoke accepting
    (MailChannels.fetch
       {| method := lit "GET"; headers_get := no_origin; json_body := None |} bare_env)
  = invoke refusing
      (Resend.fetch
         {| method := lit "GET"; headers_get := no_origin; json_body := None |} keyed_env).
Proof.
  apply (variants_agree_before_provider
           {| method := lit "GET"; headers_get := no_origin; json_body := None |}
           bare_env keyed_env accepting refusing).
  reflexivity.
Defined.

(** ** The credential *)

(** C7: in the Resend variant, a POST whose payload passes the field and
    address checks, received while [RESEND_API_KEY] is not set, is answered
    with status 500 and the body [{error: "Email service not configured"}],
    and no call is sent to the provider. *)
Theorem missing_credential_answer request env provider data :
  method request = lit "POST" ->
  json_body request = Some data ->
  passes_validation Resend.email_pattern data = true ->
  RESEND_API_KEY env = None ->
  answers (invoke provider (Resend.fetch request env))
    500 (error_body (lit "Email service not configured"))
  /\ sends (invoke provider (Resend.fetch request env)).1 = [].
Proof.
  intros Hm Hb Hv Hkey.
  rewrite (resend_run_unconfigured request env provider data) by (by rewrite ?Hkey).
  split; [| reflexivity]. rewrite resend_jsonResponse. apply answers_jsonResponse.
Qed.

(** A complete enquiry received without the credential. *)
Lemma missing_credential_answer_example :
  answers (invoke accepting (Resend.fetch (post enquiry) bare_env))
    500 (error_body (lit "Email service not configured"))
  /\ sends (invoke accepting (Resend.fetch (post enquiry) bare_env)).1 = [].
Proof.
  apply (missing_credential_answer (post enquiry) bare_env accepting enquiry).
  - reflexivity.
  - reflexivity.
  - vm_compute. reflexivity.
  - reflexivity.
Defined.

(** ** Delivery *)

Lemma jsonResponse_content_type b code request :
  headers (MailChannels.jsonResponse b code request) !! lit "Content-Type"
  = Some (lit "application/json").
Proof.
  cbn [MailChannels.jsonResponse headers]. apply lookup_union_Some_raw. right.
  split; [| apply lookup_singleton_eq].
  unfold MailChannels.corsHeaders. cbn [list_to_map foldr uncurry].
  by rewrite !lookup_insert_ne, lookup_empty.
Qed.

(** C3: for a fully valid enquiry, when the provider answers the first
    call, the operator's notification, with a status outside 200 to 299,
    the handler answers with status 500 and the body
    [{error: "Failed to send enquiry. Please try again or contact us directly."}],
    and the notification is the only call it sends: the guest's
    confirmation is not attempted.  (The Resend variant sends a first call
    only when its credential is set.) *)
Theorem failed_notification_aborts request env provider data :
  method request = lit "POST" ->
  json_body request = Some data ->
  fully_valid MailChannels.email_pattern data = true ->
  first_reply provider false ->
  (answers (invoke provider (MailChannels.fetch request env)) 500
     (error_body (lit "Failed to send enquiry. Please try again or contact us directly."))
   /\ exists first, sends (invoke provider (MailChannels.fetch request env)).1 = [first])
  /\ (forall apiKey, RESEND_API_KEY env = Some apiKey -> apiKey <> [] ->
      answers (invoke provider (Resend.fetch request env)) 500
        (error_body (lit "Failed to send enquiry. Please try again or contact us directly."))
      /\ exists first, sends (invoke provider (Resend.fetch request env)).1 = [first]).
Proof.
  intros Hm Hb Hfull Hfirst. split.
  - destruct (mc_run_valid request env provider data Hm Hb Hfull)
      as (first & second & ->).
    destruct (Hfirst first) as (r1 & -> & ->).
    split; [apply answers_jsonResponse | by exists first].
  - intros apiKey Hkey Hne.
    destruct (resend_run_valid request env provider data apiKey Hm Hb Hfull Hkey Hne)
      as (first & second & ->).
    destruct (Hfirst first) as (r1 & -> & ->).
    split; [apply answers_jsonResponse | by exists first].
Qed.

(** A complete enquiry against a provider that refuses every call. *)
Lemma failed_notification_aborts_example :
  answers (invoke refusing (MailChannels.fetch (post enquiry) keyed_env)) 500
    (error_body (lit "Failed to send enquiry. Please try again or contact us directly."))
  /\ exists first, sends (invoke refusing (MailChannels.fetch (post enquiry) keyed_env)).1 = [first].
Proof.
  apply (failed_notification_aborts (post enquiry) keyed_env refusing enquiry).
  - reflexivity.
  - reflexivity.
  - vm_compute. reflexivity.
  - intros call. eexists. split; reflexivity.
Defined.

(** C5 (amended): for a fully valid enquiry whose first call the provider
    accepts, whenever the second call, the guest's confirmation, is answered
    by a response, of any status, a failure included, the handler sends
    exactly its two calls, logs nothing and returns status 200 with the
    success body: the response is the one built from the request alone, and
    neither the status nor the text of the provider's second response has
    a part in it.  (The Resend variant sends calls only when its credential
    is set.) *)
Theorem confirmation_failure_not_surfaced request env provider data :
  method request = lit "POST" ->
  json_body request = Some data ->
  fully_valid MailChannels.email_pattern data = true ->
  first_reply provider true ->
  second_reply_any provider ->
  (answers (invoke provider (MailChannels.fetch request env)) 200 success_body
   /\ exists first second,
        invoke provider (MailChannels.fetch request env)
        = ([ReadBody; Sent first; Sent second],
           Returned (MailChannels.jsonResponse
             (object [ (lit "success", Some (JBool true));
                       (lit "message", str (lit
                          "Enquiry received. We will respond within 24 hours.")) ])
             200 request)))
  /\ (forall apiKey, RESEND_API_KEY env = Some apiKey -> apiKey <> [] ->
      answers (invoke provider (Resend.fetch request env)) 200 success_body
      /\ exists first second,
           invoke provider (Resend.fetch request env)
           = ([ReadBody; Sent first; Sent second],
              Returned (Resend.jsonResponse
                (object [ (lit "success", Some (JBool true));
                          (lit "message", str (lit
                             "Enquiry received. We will respond within 24 hours.")) ])
                200 request))).
Proof.
  intros Hm Hb Hfull Hfirst Hsecond. split.
  - destruct (mc_run_valid request env provider data Hm Hb Hfull)
      as (first & second & ->).
    destruct (Hfirst first) as (r1 & -> & ->).
    destruct (Hsecond first second) as (r2 & ->).
    split; [apply answers_jsonResponse | by exists first, second].
  - intros apiKey Hkey Hne.
    destruct (resend_run_valid request env provider data apiKey Hm Hb Hfull Hkey Hne)
      as (first & second & ->).
    destruct (Hfirst first) as (r1 & -> & ->).
    destruct (Hsecond first second) as (r2 & ->).
    split; [apply answers_jsonResponse | by exists first, second].
Qed.

(** A complete enquiry against a provider that accepts the notification
    and refuses the confirmation. *)
Lemma confirmation_failure_not_surfaced_example :
  answers (invoke accepting_once (MailChannels.fetch (post enquiry) keyed_env))
    200 success_body
  /\ answers (invoke accepting_once (Resend.fetch (post enquiry) keyed_env))
    200 success_body.
Proof.
  destruct (confirmation_failure_not_surfaced (post enquiry) keyed_env accepting_once enquiry)
    as [[Hmc _] Hresend].
  - reflexivity.
  - reflexivity.
  - vm_compute. reflexivity.
  - intros call. eexists. split; reflexivity.
  - intros call1 call2. eexists. reflexivity.
  - split; [exact Hmc |].
    apply (Hresend (lit "re_test")); [reflexivity | discriminate].
Defined.

(** C5, as worded, fails: the second call is awaited like the first, so
    when the provider has accepted the notification and cannot be reached
    for the confirmation, that outcome reaches the caller: both handlers
    throw after their two calls and no response with status 200 is
    returned. *)
Lemma rejected_confirmation_surfaces :
  fully_valid MailChannels.email_pattern enquiry = true
  /\ first_reply reachable_once true
  /\ ((invoke reachable_once (MailChannels.fetch (post enquiry) bare_env)).2
      = Thrown FetchFailed
      /\ length (sends (invoke reachable_once
                          (MailChannels.fetch (post enquiry) bare_env)).1) = 2
      /\ ~ answers (invoke reachable_once (MailChannels.fetch (post enquiry) bare_env))
             200 success_body)
  /\ ((invoke reachable_once (Resend.fetch (post enquiry) keyed_env)).2
      = Thrown FetchFailed
      /\ length (sends (invoke reachable_once
                          (Resend.fetch (post enquiry) keyed_env)).1) = 2
      /\ ~ answers (invoke reachable_once (Resend.fetch (post enquiry) keyed_env))
             200 success_body).
Proof.
  split; [vm_compute; reflexivity |].
  split; [intros call; eexists; split; reflexivity |].
  split.
  - split; [vm_compute; reflexivity |]. split; [vm_compute; reflexivity |].
    intros (r & Hr & _).
    assert (Hthrown :
      (invoke reachable_once (MailChannels.fetch (post enquiry) bare_env)).2
      = Thrown FetchFailed) by (vm_compute; reflexivity).
    rewrite Hthrown in Hr. discriminate.
  - split; [vm_compute; reflexivity |]. split; [vm_compute; reflexivity |].
    intros (r & Hr & _).
    assert (Hthrown :
      (invoke reachable_once (Resend.fetch (post enquiry) keyed_env)).2
      = Thrown FetchFailed) by (vm_compute; reflexivity).
    rewrite Hthrown in Hr. discriminate.
Qed.

(** C6: for a fully valid enquiry, when the provider accepts both calls
    (and, in the Resend variant, the credential is set), the handler sends
    exactly the two calls and its response is status 200 with the body
    [{success: true, message: "Enquiry received. We will respond within 24 hours."}],
    sent as JSON. *)
Theorem accepted_enquiry_answer request env provider data :
  method request = lit "POST" ->
  json_body request = Some data ->
  fully_valid MailChannels.email_pattern data = true ->
  first_reply provider true ->
  second_reply provider true ->
  (exists first second r,
     invoke provider (MailChannels.fetch request env)
     = ([ReadBody; Sent first; Sent second], Returned r)
     /\ status r = 200%N /\ body r = success_body
     /\ headers r !! lit "Content-Type" = Some (lit "application/json"))
  /\ (forall apiKey, RESEND_API_KEY env = Some apiKey -> apiKey <> [] ->
      exists first second r,
        invoke provider (Resend.fetch request env)
        = ([ReadBody; Sent first; Sent second], Returned r)
        /\ status r = 200%N /\ body r = success_body
        /\ headers r !! lit "Content-Type" = Some (lit "application/json")).
Proof.
  intros Hm Hb Hfull Hfirst Hsecond. split.
  - destruct (mc_run_valid request env provider data Hm Hb Hfull)
      as (first & second & ->).
    destruct (Hfirst first) as (r1 & -> & ->).
    destruct (Hsecond first second) as (r2 & -> & _).
    eexists first, second, _. split; [reflexivity |].
    split; [reflexivity |]. split; [reflexivity |]. apply jsonResponse_content_type.
  - intros apiKey Hkey Hne.
    destruct (resend_run_valid request env provider data apiKey Hm Hb Hfull Hkey Hne)
      as (first & second & ->).
    destruct (Hfirst first) as (r1 & -> & ->).
    destruct (Hsecond first second) as (r2 & -> & _).
    eexists first, second, _. split; [reflexivity |].
    split; [reflexivity |]. split; [reflexivity |]. apply jsonResponse_content_type.
Qed.

(** A complete enquiry against a provider that accepts every call. *)
Lemma accepted_enquiry_answer_example :
  exists first second r,
    invoke accepting (MailChannels.fetch (post enquiry) bare_env)
    = ([ReadBody; Sent first; Sent second], Returned r)
    /\ status r = 200%N /\ body r = success_body
    /\ headers r !! lit "Content-Type" = Some (lit "application/json").
Proof.
  apply (accepted_enquiry_answer (post enquiry) bare_env accepting enquiry).
  - reflexivity.
  - reflexivity.
  - vm_compute. reflexivity.
  - intros call. eexists. split; reflexivity.
  - intros call1 call2. eexists. split; reflexivity.
Defined.

(** ** The address check *)

(** Once a payload has passed validation, no status 400 is returned. *)
Lemma validated_not_400 fetch request env provider data r :
  fetch = MailChannels.fetch \/ fetch = Resend.fetch ->
  method request = lit "POST" ->
  json_body request = Some data ->
  passes_validation MailChannels.email_pattern data = true ->
  (invoke provider (fetch request env)).2 = Returned r ->
  status r <> 400%N.
Proof.
  intros Hfetch Hm Hb Hv.
  destruct (validated_checks _ _ Hv) as [Hloop Htest].
  destruct Hfetch as [-> | ->]; run_post Hm Hb;
    rewrite Hloop; cbn [lift]; rewrite Htest; cbn [lift negb].
  - destruct (MailChannels.enquiry_call data _) as [first |]; cbn [lift run app];
      [| discriminate].
    destruct (provider (sends [ReadBody]) first) as [r1 |]; [| discriminate].
    destruct (ok r1); cbn [negb run app].
    + destruct (MailChannels.confirmation_call data) as [second |];
        cbn [lift run app]; [| discriminate].
      destruct (provider _ second); [| discriminate].
      intros [= <-]. discriminate.
    + intros [= <-]. discriminate.
  - destruct (RESEND_API_KEY env) as [apiKey |]; [| intros [= <-]; discriminate].
    destruct (str_eqb apiKey []); [intros [= <-]; discriminate |].
    destruct (Resend.enquiry_call data apiKey _) as [first |]; cbn [lift run app];
      [| discriminate].
    destruct (provider (sends [ReadBody]) first) as [r1 |]; [| discriminate].
    destruct (ok r1); cbn [negb run app].
    + destruct (Resend.confirmation_call data apiKey) as [second |];
        cbn [lift run app]; [| discriminate].
      destruct (provider _ second); [| discriminate].
      intros [= <-]. discriminate.
    + intros [= <-]. discriminate.
Qed.

Lemma address_check fetch request env provider data e :
  fetch = MailChannels.fetch \/ fetch = Resend.fetch ->
  method request = lit "POST" ->
  json_body request = Some data ->
  forallb (fun f => nonblank_text (field_of data f)) validation_order = true ->
  field_of data (lit "email") = Some (JStr e) ->
  answers (invoke provider (fetch request env)) 400 (error_body (lit "Invalid email address"))
  <-> ~ email_shape non_space_non_at e.
Proof.
  intros Hfetch Hm Hb Hall He. rewrite <- email_pattern_spec.
  assert (Hv : passes_validation MailChannels.email_pattern data
               = full_match MailChannels.email_pattern e).
  { unfold passes_validation. by rewrite Hall, He. }
  destruct (full_match MailChannels.email_pattern e) eqn:Hmatch.
  - split; [| done]. intros (r & Hr & Hstatus & _).
    by destruct (validated_not_400 fetch request env provider data r).
  - split; [done |]. intros _.
    rewrite (run_rejected fetch request env provider data) by auto.
    rewrite (missing_field_none data MailChannels.required Hall).
    assert (Hget : Get data (lit "email") = Ok (Some (JStr e))).
    { rewrite Get_field_of, He; [done |]. intros ->. discriminate. }
    rewrite Hget. unfold RegExp_test. cbn [rbind ToString ToString_json].
    apply answers_jsonResponse.
Qed.

(** C4 (amended): for a POST body whose six required fields hold
    non-blank text, the address is refused, with status 400 and the body
    [{error: "Invalid email address"}], exactly when it is not of the shape
    local-part, [@], domain-part, [.], TLD-part with the three parts
    non-empty and free of whitespace and of [@]; what the other fields hold
    plays no part. *)
Theorem address_accepted_iff_shape request env provider data e :
  method request = lit "POST" ->
  json_body request = Some data ->
  forallb (fun f => nonblank_text (field_of data f)) validation_order = true ->
  field_of data (lit "email") = Some (JStr e) ->
  (answers (invoke provider (MailChannels.fetch request env))
     400 (error_body (lit "Invalid email address"))
   <-> ~ email_shape non_space_non_at e)
  /\ (answers (invoke provider (Resend.fetch request env))
        400 (error_body (lit "Invalid email address"))
      <-> ~ email_shape non_space_non_at e).
Proof.
  intros Hm Hb Hall He.
  split; apply (address_check _ request env provider data e); auto.
Qed.

(** The address of the sample enquiry. *)
Lemma address_accepted_iff_shape_example :
  answers (invoke accepting (MailChannels.fetch (post enquiry) bare_env))
    400 (error_body (lit "Invalid email address"))
  <-> ~ email_shape non_space_non_at (lit "ann@example.com").
Proof.
  apply (address_accepted_iff_shape (post enquiry) bare_env accepting enquiry
           (lit "ann@example.com")).
  - reflexivity.
  - reflexivity.
  - vm_compute. reflexivity.
  - vm_compute. reflexivity.
Defined.

(** C4, as worded, fails: an address with a second [@] has the worded
    shape, its domain-part [b@c] being free of whitespace, and is refused
    all the same; and an enquiry none of whose required fields is blank,
    the number of guests being a number, is neither accepted nor refused:
    the field check throws. *)
Lemma second_at_sign_refused :
  (forallb (fun f => nonblank_text (field_of (enquiry_with (lit "email") (JStr (lit "a@b@c.d"))) f))
     validation_order = true
   /\ email_shape non_space (lit "a@b@c.d")
   /\ answers
        (invoke accepting
           (MailChannels.fetch (post (enquiry_with (lit "email") (JStr (lit "a@b@c.d")))) bare_env))
        400 (error_body (lit "Invalid email address"))
   /\ answers
        (invoke accepting
           (Resend.fetch (post (enquiry_with (lit "email") (JStr (lit "a@b@c.d")))) keyed_env))
        400 (error_body (lit "Invalid email address")))
  /\ (forallb (fun f => negb (missing_or_blank (field_of counted_enquiry f)))
        validation_order = true
      /\ field_of counted_enquiry (lit "email") = Some (JStr (lit "ann@example.com"))
      /\ full_match MailChannels.email_pattern (lit "ann@example.com") = true
      /\ invoke accepting (MailChannels.fetch (post counted_enquiry) bare_env)
         = ([ReadBody], Thrown TypeError)
      /\ invoke accepting (Resend.fetch (post counted_enquiry) keyed_env)
         = ([ReadBody], Thrown TypeError)).
Proof.
  split.
  - split; [vm_compute; reflexivity |]. split.
    + exists (lit "a"), (lit "b@c"), (lit "d").
      split; [reflexivity |]. split; [discriminate |].
      split; [discriminate |]. split; [discriminate |].
      split; [| split]; repeat constructor.
    + split; eexists; (split; [vm_compute; reflexivity |]);
        split; vm_compute; reflexivity.
  - split; [vm_compute; reflexivity |]. split; [vm_compute; reflexivity |].
    split; [vm_compute; reflexivity |]. split; vm_compute; reflexivity.
Qed.

(** * Further properties of the handlers *)

(** ** The early answers *)

(** X1: a request whose method is neither OPTIONS nor POST is answered at
    once with status 405 and the body [{error: "Method not allowed"}], by
    both handlers; its body is not read. *)
Theorem other_method_refused request env provider :
  method request <> lit "OPTIONS" ->
  method request <> lit "POST" ->
  exists r,
    invoke provider (MailChannels.fetch request env) = ([], Returned r)
    /\ invoke provider (Resend.fetch request env) = ([], Returned r)
    /\ status r = 405%N
    /\ body r = error_body (lit "Method not allowed").
Proof.
  intros Hoptions%str_eqb_neq Hpost%str_eqb_neq.
  exists (MailChannels.jsonResponse
            (object [(lit "error", str (lit "Method not allowed"))]) 405 request).
  unfold invoke, MailChannels.fetch, Resend.fetch. rewrite Hoptions, Hpost.
  repeat split.
Qed.

(** A GET request. *)
Lemma other_method_refused_example :
  exists r,
    invoke accepting (MailChannels.fetch (bodiless (lit "GET")) bare_env) = ([], Returned r)
    /\ invoke accepting (Resend.fetch (bodiless (lit "GET")) bare_env) = ([], Returned r)
    /\ status r = 405%N
    /\ body r = error_body (lit "Method not allowed").
Proof.
  apply (other_method_refused (bodiless (lit "GET")) bare_env accepting);
    discriminate.
Defined.

(** X2: a POST whose body is not JSON is answered with status 400 and the
    body [{error: "Invalid request body"}], by both handlers, once the body
    has been read; nothing is sent. *)
Theorem unreadable_body_refused request env provider :
  method request = lit "POST" ->
  json_body request = None ->
  exists r,
    invoke provider (MailChannels.fetch request env) = ([ReadBody], Returned r)
    /\ invoke provider (Resend.fetch request env) = ([ReadBody], Returned r)
    /\ status r = 400%N
    /\ body r = error_body (lit "Invalid request body").
Proof.
  intros Hm Hb.
  exists (MailChannels.jsonResponse
            (object [(lit "error", str (lit "Invalid request body"))]) 400 request).
  split; [by run_post Hm Hb |]. split; [by run_post Hm Hb |]. by split.
Qed.

(** A POST without a readable body. *)
Lemma unreadable_body_refused_example :
  exists r,
    invoke accepting (MailChannels.fetch (bodiless (lit "POST")) bare_env)
    = ([ReadBody], Returned r)
    /\ invoke accepting (Resend.fetch (bodiless (lit "POST")) bare_env)
       = ([ReadBody], Returned r)
    /\ status r = 400%N
    /\ body r = error_body (lit "Invalid request body").
Proof.
  apply (unreadable_body_refused (bodiless (lit "POST")) bare_env accepting);
    reflexivity.
Defined.

(** ** What every response carries *)

Lemma corsHeaders_fixed request :
  MailChannels.corsHeaders request !! lit "Access-Control-Allow-Methods"
  = Some (lit "POST, OPTIONS")
  /\ MailChannels.corsHeaders request !! lit "Access-Control-Allow-Headers"
     = Some (lit "Content-Type").
Proof.
  unfold MailChannels.corsHeaders. cbn [list_to_map foldr uncurry]. split.
  - rewrite lookup_insert_ne by done. apply lookup_insert_eq.
  - rewrite !lookup_insert_ne by done. apply lookup_insert_eq.
Qed.

Lemma preflight_fixed_cors request :
  fixed_cors {| status := 200; headers := MailChannels.corsHeaders request; body := null |}.
Proof. apply corsHeaders_fixed. Qed.

Lemma jsonResponse_fixed_cors b code request :
  fixed_cors (MailChannels.jsonResponse b code request).
Proof.
  destruct (corsHeaders_fixed request) as [Hmethods Hheaders].
  split; cbn [MailChannels.jsonResponse headers]; by apply lookup_union_Some_l.
Qed.

Lemma jsonResponse_json_typed b code request :
  json_typed (MailChannels.jsonResponse b code request).
Proof. split; [apply jsonResponse_content_type | by exists b]. Qed.

(** Walks the branches of a handler down to its responses and applies
    [leaf] to each. *)
Ltac walk_returns leaf :=
  repeat match goal with
  | |- returns_only _ (Return _) => cbn [returns_only]; leaf
  | |- returns_only _ (Throw _) => exact I
  | |- returns_only _ (AwaitJson _ _) => cbn [returns_only]; intro
  | |- returns_only _ (AwaitFetch _ _) => cbn [returns_only]; intro
  | |- returns_only _ (ConsoleError _ _) => cbn [returns_only]
  | |- returns_only _ (lift ?x _) => destruct x; cbn [lift]
  | |- returns_only _ (if ?b then _ else _) => destruct b
  | |- returns_only _ (match ?x with _ => _ end) => destruct x
  | |- _ => leaf
  end.

Ltac fixed_cors_leaf :=
  idtac;
  match goal with
  | |- fixed_cors (MailChannels.jsonResponse _ _ _) => apply jsonResponse_fixed_cors
  | |- fixed_cors (Build_Response _ _ _) => apply preflight_fixed_cors
  end.

(** X3: every response either handler returns, on every path, carries
    [Access-Control-Allow-Methods: POST, OPTIONS] and
    [Access-Control-Allow-Headers: Content-Type]. *)
Theorem fixed_cors_on_every_response request env provider trace r :
  invoke provider (MailChannels.fetch request env) = (trace, Returned r)
  \/ invoke provider (Resend.fetch request env) = (trace, Returned r) ->
  headers r !! lit "Access-Control-Allow-Methods" = Some (lit "POST, OPTIONS")
  /\ headers r !! lit "Access-Control-Allow-Headers" = Some (lit "Content-Type").
Proof.
  intros [Hrun | Hrun]; eapply (run_returns_only fixed_cors); try exact Hrun.
  - unfold MailChannels.fetch. walk_returns fixed_cors_leaf.
  - unfold Resend.fetch. rewrite resend_jsonResponse, resend_corsHeaders.
    walk_returns fixed_cors_leaf.
Qed.

(** The answer to a GET request. *)
Lemma fixed_cors_on_every_response_example :
  headers (MailChannels.jsonResponse
             (object [(lit "error", str (lit "Method not allowed"))]) 405
             (bodiless (lit "GET")))
    !! lit "Access-Control-Allow-Methods" = Some (lit "POST, OPTIONS")
  /\ headers (MailChannels.jsonResponse
                (object [(lit "error", str (lit "Method not allowed"))]) 405
                (bodiless (lit "GET")))
       !! lit "Access-Control-Allow-Headers" = Some (lit "Content-Type").
Proof.
  apply (fixed_cors_on_every_response (bodiless (lit "GET")) bare_env accepting []).
  left. reflexivity.
Defined.

Ltac json_typed_leaf :=
  idtac;
  match goal with
  | |- json_typed (MailChannels.jsonResponse _ _ _) => apply jsonResponse_json_typed
  end.

(** X4: every response to a request other than a preflight is declared
    [Content-Type: application/json] and has a JSON document as its body,
    on the error paths as on the success path. *)
Theorem json_typed_unless_preflight request env provider trace r :
  method request <> lit "OPTIONS" ->
  invoke provider (MailChannels.fetch request env) = (trace, Returned r)
  \/ invoke provider (Resend.fetch request env) = (trace, Returned r) ->
  headers r !! lit "Content-Type" = Some (lit "application/json")
  /\ exists v, body r = JSON_stringify v.
Proof.
  intros Hoptions%str_eqb_neq [Hrun | Hrun];
    eapply (run_returns_only json_typed); try exact Hrun.
  - unfold MailChannels.fetch. rewrite Hoptions. walk_returns json_typed_leaf.
  - unfold Resend.fetch. rewrite Hoptions, resend_jsonResponse.
    walk_returns json_typed_leaf.
Qed.

(** The answer to a complete enquiry without the credential. *)
Lemma json_typed_unless_preflight_example :
  headers (Resend.jsonResponse
             (object [(lit "error", str (lit "Email service not configured"))]) 500
             (post enquiry))
    !! lit "Content-Type" = Some (lit "application/json")
  /\ exists v,
       body (Resend.jsonResponse
               (object [(lit "error", str (lit "Email service not configured"))]) 500
               (post enquiry))
       = JSON_stringify v.
Proof.
  apply (json_typed_unless_preflight (post enquiry) bare_env accepting [ReadBody]).
  - discriminate.
  - right. vm_compute. reflexivity.
Defined.

Ltac known_status_leaf :=
  idtac;
  match goal with
  | |- known_status _ = true =>
      unfold known_status; cbn [status MailChannels.jsonResponse]; reflexivity
  end.

(** X5: the status of every response either handler returns is 200, 400,
    405 or 500. *)
Theorem status_is_known request env provider trace r :
  invoke provider (MailChannels.fetch request env) = (trace, Returned r)
  \/ invoke provider (Resend.fetch request env) = (trace, Returned r) ->
  status r = 200%N \/ status r = 400%N \/ status r = 405%N \/ status r = 500%N.
Proof.
  intros Hrun.
  assert (Hknown : known_status r = true).
  { destruct Hrun as [Hrun | Hrun];
      eapply (run_returns_only (fun r => known_status r = true)); try exact Hrun.
    - unfold MailChannels.fetch. walk_returns known_status_leaf.
    - unfold Resend.fetch. rewrite resend_jsonResponse.
      walk_returns known_status_leaf. }
  unfold known_status in Hknown. cbn [existsb] in Hknown.
  rewrite !orb_true_iff, !N.eqb_eq in Hknown.
  destruct Hknown as [? | [? | [? | [? | ?]]]]; auto; discriminate.
Qed.

(** The status of the answer to a GET request. *)
Lemma status_is_known_example :
  status (MailChannels.jsonResponse
            (object [(lit "error", str (lit "Method not allowed"))]) 405
            (bodiless (lit "GET"))) = 405%N.
Proof.
  destruct (status_is_known (bodiless (lit "GET")) bare_env accepting [] _
              (or_introl eq_refl)) as [H | [H | [H | H]]];
    first [ discriminate H | reflexivity ].
Defined.

(** ** Outbound calls *)

Lemma sends_app trace trace' : sends (trace ++ trace') = sends trace ++ sends trace'.
Proof. unfold sends. apply omap_app. Qed.

(** A task that awaits at most [n] calls adds at most [n] calls to the
    trace. *)
Lemma run_sends_at_most {A} provider (t : Task A) n trace :
  sends_at_most n t ->
  length (sends (run provider t trace).1) <= length (sends trace) + n.
Proof.
  revert n trace.
  induction t as [a | e | request k IH | call k IH | args k IH];
    intros n trace Hn; cbn [run sends_at_most] in *.
  - cbn [fst]. lia.
  - cbn [fst]. lia.
  - etransitivity; [apply IH, Hn |]. rewrite sends_app, length_app. cbn. lia.
  - destruct n as [| m]; [done |].
    destruct (provider (sends trace) call) as [r |].
    + etransitivity; [apply IH, Hn |]. rewrite sends_app, length_app. cbn. lia.
    + cbn [fst]. rewrite sends_app, length_app. cbn. lia.
  - etransitivity; [apply IH, Hn |]. rewrite sends_app, length_app. cbn. lia.
Qed.

(** Walks the branches of a handler and counts its outbound calls. *)
Ltac walk_sends :=
  repeat match goal with
  | |- sends_at_most _ (Return _) => exact I
  | |- sends_at_most _ (Throw _) => exact I
  | |- sends_at_most _ (AwaitJson _ _) => cbn [sends_at_most]; intro
  | |- sends_at_most _ (AwaitFetch _ _) => cbn [sends_at_most]; intro
  | |- sends_at_most _ (ConsoleError _ _) => cbn [sends_at_most]
  | |- sends_at_most _ (lift ?x _) => destruct x; cbn [lift]
  | |- sends_at_most _ (if ?b then _ else _) => destruct b
  | |- sends_at_most _ (match ?x with _ => _ end) => destruct x
  | |- True => exact I
  end.

(** X6: on no request, with no provider, does either handler send more
    than two outbound calls. *)
Theorem at_most_two_sends request env provider :
  length (sends (invoke provider (MailChannels.fetch request env)).1) <= 2
  /\ length (sends (invoke provider (Resend.fetch request env)).1) <= 2.
Proof.
  split; unfold invoke.
  - apply (run_sends_at_most provider (MailChannels.fetch request env) 2 []).
    unfold MailChannels.fetch. walk_sends.
  - apply (run_sends_at_most provider (Resend.fetch request env) 2 []).
    unfold Resend.fetch. walk_sends.
Qed.

(** A request that ends before the provider sends nothing. *)
Lemma stops_no_send fetch request env provider :
  fetch = MailChannels.fetch \/ fetch = Resend.fetch ->
  stops_before_provider MailChannels.email_pattern request = true ->
  sends (invoke provider (fetch request env)).1 = [].
Proof.
  unfold stops_before_provider. intros Hfetch Hstop.
  destruct (str_eqb (method request) (lit "OPTIONS")) eqn:Hoptions.
  { destruct Hfetch as [-> | ->];
      unfold invoke, MailChannels.fetch, Resend.fetch; by rewrite Hoptions. }
  destruct (str_eqb (method request) (lit "POST")) eqn:Hpost.
  2: { destruct Hfetch as [-> | ->];
         unfold invoke, MailChannels.fetch, Resend.fetch; by rewrite Hoptions, Hpost. }
  apply str_eqb_eq in Hpost. cbn [orb negb] in Hstop.
  destruct (json_body request) as [data |] eqn:Hbody.
  - apply negb_true_iff in Hstop.
    by rewrite (run_rejected fetch request env provider data).
  - destruct Hfetch as [-> | ->]; by run_post Hpost Hbody.
Qed.

(** X7: a handler sends an outbound call only for a POST whose payload
    has passed the field check and the address check, and the Resend
    handler only when its credential is set and not empty. *)
Theorem sends_only_validated request env provider :
  sends (invoke provider (MailChannels.fetch request env)).1 <> []
  \/ sends (invoke provider (Resend.fetch request env)).1 <> [] ->
  method request = lit "POST"
  /\ (exists data, json_body request = Some data
        /\ passes_validation MailChannels.email_pattern data = true)
  /\ (sends (invoke provider (Resend.fetch request env)).1 <> [] ->
      exists apiKey, RESEND_API_KEY env = Some apiKey /\ apiKey <> []).
Proof.
  intros Hsent.
  destruct (stops_before_provider MailChannels.email_pattern request) eqn:Hstop.
  { destruct Hsent as [Hsent | Hsent]; destruct Hsent; by apply stops_no_send; auto. }
  unfold stops_before_provider in Hstop.
  apply orb_false_iff in Hstop as [[_ Hpost%negb_false_iff%str_eqb_eq]%orb_false_iff Hbody].
  destruct (json_body request) as [data |] eqn:Hdata; [| done].
  apply negb_false_iff in Hbody.
  split; [done |]. split; [eauto |]. intros Hresend.
  destruct (RESEND_API_KEY env) as [apiKey |] eqn:Hkey.
  - exists apiKey. split; [done |]. intros ->. destruct Hresend.
    by rewrite (resend_run_unconfigured request env provider data); [| | | | rewrite Hkey].
  - destruct Hresend.
    by rewrite (resend_run_unconfigured request env provider data); [| | | | rewrite Hkey].
Qed.

(** A complete enquiry, which is sent. *)
Lemma sends_only_validated_example :
  method (post enquiry) = lit "POST"
  /\ exists data, json_body (post enquiry) = Some data
       /\ passes_validation MailChannels.email_pattern data = true.
Proof.
  destruct (sends_only_validated (post enquiry) bare_env accepting) as (Hm & Hdata & _).
  - left. vm_compute. discriminate.
  - split; assumption.
Defined.

(** X8: a credential set to the empty text counts as not set: the
    Resend handler answers a validated enquiry with status 500 and
    [{error: "Email service not configured"}], and sends nothing. *)
Theorem empty_credential_unconfigured request env provider data :
  method request = lit "POST" ->
  json_body request = Some data ->
  passes_validation Resend.email_pattern data = true ->
  RESEND_API_KEY env = Some [] ->
  answers (invoke provider (Resend.fetch request env))
    500 (error_body (lit "Email service not configured"))
  /\ sends (invoke provider (Resend.fetch request env)).1 = [].
Proof.
  intros Hm Hb Hv Hkey.
  rewrite (resend_run_unconfigured request env provider data) by (by rewrite ?Hkey).
  split; [| reflexivity]. rewrite resend_jsonResponse. apply answers_jsonResponse.
Qed.

(** A complete enquiry received with an empty credential. *)
Lemma empty_credential_unconfigured_example :
  answers (invoke accepting (Resend.fetch (post enquiry) empty_key_env))
    500 (error_body (lit "Email service not configured"))
  /\ sends (invoke accepting (Resend.fetch (post enquiry) empty_key_env)).1 = [].
Proof.
  apply (empty_credential_unconfigured (post enquiry) empty_key_env accepting enquiry).
  - reflexivity.
  - reflexivity.
  - vm_compute. reflexivity.
  - reflexivity.
Defined.

(** X9: when the provider cannot be reached for the first call of a fully
    valid enquiry, the handler throws after that one call and returns no
    response.  (The Resend variant sends a call only when its credential is
    set.) *)
Theorem unreachable_provider_throws request env provider data :
  method request = lit "POST" ->
  json_body request = Some data ->
  fully_valid MailChannels.email_pattern data = true ->
  first_rejects provider ->
  (exists first,
     invoke provider (MailChannels.fetch request env)
     = ([ReadBody; Sent first], Thrown FetchFailed))
  /\ (forall apiKey, RESEND_API_KEY env = Some apiKey -> apiKey <> [] ->
      exists first,
        invoke provider (Resend.fetch request env)
        = ([ReadBody; Sent first], Thrown FetchFailed)).
Proof.
  intros Hm Hb Hfull Hfirst. split.
  - destruct (mc_run_valid request env provider data Hm Hb Hfull)
      as (first & second & ->).
    rewrite Hfirst. by exists first.
  - intros apiKey Hkey Hne.
    destruct (resend_run_valid request env provider data apiKey Hm Hb Hfull Hkey Hne)
      as (first & second & ->).
    rewrite Hfirst. by exists first.
Qed.

(** A complete enquiry against a provider that cannot be reached. *)
Lemma unreachable_provider_throws_example :
  exists first,
    invoke unreachable (MailChannels.fetch (post enquiry) bare_env)
    = ([ReadBody; Sent first], Thrown FetchFailed).
Proof.
  apply (unreachable_provider_throws (post enquiry) bare_env unreachable enquiry).
  - reflexivity.
  - reflexivity.
  - vm_compute. reflexivity.
  - intros call. reflexivity.
Defined.

(** X10: when the provider accepts the first call of a fully valid
    enquiry and cannot be reached for the second, the handler throws after
    the two calls: the client gets no success response, although the
    operator's notification has been delivered. *)
Theorem lost_confirmation_throws request env provider data :
  method request = lit "POST" ->
  json_body request = Some data ->
  fully_valid MailChannels.email_pattern data = true ->
  first_reply provider true ->
  second_rejects provider ->
  (exists first second,
     invoke provider (MailChannels.fetch request env)
     = ([ReadBody; Sent first; Sent second], Thrown FetchFailed))
  /\ (forall apiKey, RESEND_API_KEY env = Some apiKey -> apiKey <> [] ->
      exists first second,
        invoke provider (Resend.fetch request env)
        = ([ReadBody; Sent first; Sent second], Thrown FetchFailed)).
Proof.
  intros Hm Hb Hfull Hfirst Hsecond. split.
  - destruct (mc_run_valid request env provider data Hm Hb Hfull)
      as (first & second & ->).
    destruct (Hfirst first) as (r1 & -> & ->). rewrite Hsecond.
    by exists first, second.
  - intros apiKey Hkey Hne.
    destruct (resend_run_valid request env provider data apiKey Hm Hb Hfull Hkey Hne)
      as (first & second & ->).
    destruct (Hfirst first) as (r1 & -> & ->). rewrite Hsecond.
    by exists first, second.
Qed.

(** A complete enquiry against a provider reached only once. *)
Lemma lost_confirmation_throws_example :
  exists first second,
    invoke reachable_once (MailChannels.fetch (post enquiry) bare_env)
    = ([ReadBody; Sent first; Sent second], Thrown FetchFailed).
Proof.
  apply (lost_confirmation_throws (post enquiry) bare_env reachable_once enquiry).
  - reflexivity.
  - reflexivity.
  - vm_compute. reflexivity.
  - intros call. eexists. split; reflexivity.
  - intros call1 call2. reflexivity.
Defined.

(** X11: when the provider refuses the first call of a fully valid
    enquiry, the handler logs one entry before it answers, made of the
    variant's tag and the text of the provider's response; this is the
    only effect after the call. *)
Theorem delivery_failure_logged request env provider data r1 :
  method request = lit "POST" ->
  json_body request = Some data ->
  fully_valid MailChannels.email_pattern data = true ->
  (forall call, provider [] call = Fulfilled r1) ->
  ok r1 = false ->
  (exists first,
     (invoke provider (MailChannels.fetch request env)).1
     = [ReadBody; Sent first; Logged [lit "MailChannels error:"; text r1]])
  /\ (forall apiKey, RESEND_API_KEY env = Some apiKey -> apiKey <> [] ->
      exists first,
        (invoke provider (Resend.fetch request env)).1
        = [ReadBody; Sent first; Logged [lit "Resend error:"; text r1]]).
Proof.
  intros Hm Hb Hfull Hfirst Hok. split.
  - destruct (mc_run_valid request env provider data Hm Hb Hfull)
      as (first & second & ->).
    rewrite Hfirst, Hok. by exists first.
  - intros apiKey Hkey Hne.
    destruct (resend_run_valid request env provider data apiKey Hm Hb Hfull Hkey Hne)
      as (first & second & ->).
    rewrite Hfirst, Hok. by exists first.
Qed.

(** A complete enquiry against a provider that refuses with a message. *)
Lemma delivery_failure_logged_example :
  exists first,
    (invoke (refusing_with (lit "domain not verified"))
       (MailChannels.fetch (post enquiry) bare_env)).1
    = [ReadBody; Sent first;
       Logged [lit "MailChannels error:"; lit "domain not verified"]].
Proof.
  apply (delivery_failure_logged (post enquiry) bare_env
           (refusing_with (lit "domain not verified")) enquiry
           {| provider_status := 422; text := lit "domain not verified" |}).
  - reflexivity.
  - reflexivity.
  - vm_compute. reflexivity.
  - intros call. reflexivity.
  - reflexivity.
Defined.

Lemma error_not_success message :
  JSON_stringify (object [(lit "error", str message)]) <> success_body.
Proof.
  intros H.
  apply (f_equal (fun b => match b with
                           | JSON_stringify v => field_of v (lit "success")
                           | null => None
                           end)) in H.
  vm_compute in H. discriminate.
Qed.

(** Closes a branch whose response is an error while the success body is
    assumed. *)
Ltac not_success :=
  let Hbody := fresh "Hbody" in
  intros [= <- <-] Hbody; cbn [body MailChannels.jsonResponse] in Hbody;
  first [ discriminate Hbody | by apply error_not_success in Hbody ].

Lemma success_run fetch request env provider trace r :
  fetch = MailChannels.fetch \/ fetch = Resend.fetch ->
  invoke provider (fetch request env) = (trace, Returned r) ->
  body r = success_body ->
  exists first second r1 r2,
    trace = [ReadBody; Sent first; Sent second]
    /\ provider [] first = Fulfilled r1 /\ ok r1 = true
    /\ provider [first] second = Fulfilled r2
    /\ status r = 200%N.
Proof.
  intros Hfetch.
  destruct (str_eqb (method request) (lit "OPTIONS")) eqn:Hoptions.
  { destruct Hfetch as [-> | ->];
      unfold invoke, MailChannels.fetch, Resend.fetch; rewrite Hoptions;
      cbn [run]; not_success. }
  destruct (str_eqb (method request) (lit "POST")) eqn:Hpost.
  2: { destruct Hfetch as [-> | ->];
         unfold invoke, MailChannels.fetch, Resend.fetch;
         rewrite Hoptions, Hpost, ?resend_jsonResponse; cbn [negb run]; not_success. }
  apply str_eqb_eq in Hpost.
  destruct (json_body request) as [data |] eqn:Hbody.
  2: { destruct Hfetch as [-> | ->]; run_post Hpost Hbody; not_success. }
  destruct (passes_validation MailChannels.email_pattern data) eqn:Hv.
  2: { rewrite (run_rejected fetch request env provider data) by auto.
       destruct (MailChannels.missing_field data MailChannels.required)
         as [[field |] | e]; [not_success | | discriminate].
       destruct (let? email := Get data (lit "email") in
                 RegExp_test MailChannels.email_pattern email)%result;
         [not_success | discriminate]. }
  destruct (validated_checks _ _ Hv) as [Hloop Htest].
  destruct Hfetch as [-> | ->]; run_post Hpost Hbody;
    rewrite Hloop; cbn [lift]; rewrite Htest; cbn [lift negb].
  - destruct (MailChannels.enquiry_call data _) as [first |]; cbn [lift run app];
      [| discriminate].
    change (sends [ReadBody]) with (@nil OutCall).
    destruct (provider [] first) as [r1 |] eqn:Hfirst; [| discriminate].
    destruct (ok r1) eqn:Hok; cbn [negb run app]; [| not_success].
    destruct (MailChannels.confirmation_call data) as [second |];
      cbn [lift run app]; [| discriminate].
    change (sends [ReadBody; Sent first]) with [first].
    destruct (provider [first] second) as [r2 |] eqn:Hsecond; [| discriminate].
    intros [= <- <-] _. by exists first, second, r1, r2.
  - destruct (RESEND_API_KEY env) as [apiKey |]; [| not_success].
    destruct (str_eqb apiKey []); [not_success |].
    destruct (Resend.enquiry_call data apiKey _) as [first |]; cbn [lift run app];
      [| discriminate].
    change (sends [ReadBody]) with (@nil OutCall).
    destruct (provider [] first) as [r1 |] eqn:Hfirst; [| discriminate].
    destruct (ok r1) eqn:Hok; cbn [negb run app]; [| not_success].
    destruct (Resend.confirmation_call data apiKey) as [second |];
      cbn [lift run app]; [| discriminate].
    change (sends [ReadBody; Sent first]) with [first].
    destruct (provider [first] second) as [r2 |] eqn:Hsecond; [| discriminate].
    intros [= <- <-] _. by exists first, second, r1, r2.
Qed.

(** X12: a handler returns the success body only after it has sent its two
    calls and the provider has accepted the first, the operator's
    notification, and returned some response to the second; the status is
    then 200. *)
Theorem success_means_accepted request env provider trace r :
  invoke provider (MailChannels.fetch request env) = (trace, Returned r)
  \/ invoke provider (Resend.fetch request env) = (trace, Returned r) ->
  body r = success_body ->
  exists first second r1 r2,
    trace = [ReadBody; Sent first; Sent second]
    /\ provider [] first = Fulfilled r1 /\ ok r1 = true
    /\ provider [first] second = Fulfilled r2
    /\ status r = 200%N.
Proof.
  intros [Hrun | Hrun] Hbody.
  - by apply (success_run MailChannels.fetch request env provider trace r); auto.
  - by apply (success_run Resend.fetch request env provider trace r); auto.
Qed.

(** A complete enquiry against a provider that accepts every call. *)
Lemma success_means_accepted_example :
  exists first second,
    (invoke accepting (MailChannels.fetch (post enquiry) bare_env)).1
    = [ReadBody; Sent first; Sent second].
Proof.
  assert (Hout :
    (invoke accepting (MailChannels.fetch (post enquiry) bare_env)).2
    = Returned (MailChannels.jsonResponse
        (object [ (lit "success", Some (JBool true));
                  (lit "message", str (lit
                     "Enquiry received. We will respond within 24 hours.")) ])
        200 (post enquiry))) by (vm_compute; reflexivity).
  destruct (invoke accepting (MailChannels.fetch (post enquiry) bare_env))
    as [trace out] eqn:Hrun.
  cbn [snd] in Hout. subst out.
  destruct (success_means_accepted _ _ _ _ _ (or_introl Hrun) eq_refl)
    as (first & second & _ & _ & -> & _).
  by exists first, second.
Defined.

(** ** Where the two mails go *)

(** The run of the MailChannels handler on a fully valid enquiry, with
    the two calls it builds. *)
Lemma mc_run_valid_calls request env provider data :
  method request = lit "POST" ->
  json_body request = Some data ->
  fully_valid MailChannels.email_pattern data = true ->
  first_reply provider true ->
  second_reply_any provider ->
  exists first second,
    MailChannels.enquiry_call data
      (or_text (TO_EMAIL env) (lit "info@chalet-josephine.com")) = Ok first
    /\ MailChannels.confirmation_call data = Ok second
    /\ (invoke provider (MailChannels.fetch request env)).1
       = [ReadBody; Sent first; Sent second].
Proof.
  intros Hm Hb Hfull Hreply1 Hreply2.
  destruct (mc_calls data (or_text (TO_EMAIL env) (lit "info@chalet-josephine.com")) Hfull)
    as (first & second & Hfirst & Hsecond).
  exists first, second. split; [done |]. split; [done |].
  assert (Hv : passes_validation MailChannels.email_pattern data = true).
  { unfold fully_valid in Hfull. by apply andb_true_iff in Hfull as [[? _]%andb_true_iff _]. }
  destruct (validated_checks _ _ Hv) as [Hloop Htest].
  run_post Hm Hb. rewrite Hloop. cbn [lift]. rewrite Htest. cbn [lift negb].
  rewrite Hfirst. cbn [lift run app].
  change (sends [ReadBody]) with (@nil OutCall).
  destruct (Hreply1 first) as (r1 & -> & ->). cbn [negb run app].
  rewrite Hsecond. cbn [lift run app].
  change (sends [ReadBody; Sent first]) with [first].
  by destruct (Hreply2 first second) as (r2 & ->).
Qed.

(** The same for the Resend handler, its credential set. *)
Lemma resend_run_valid_calls request env provider data apiKey :
  method request = lit "POST" ->
  json_body request = Some data ->
  fully_valid MailChannels.email_pattern data = true ->
  RESEND_API_KEY env = Some apiKey ->
  apiKey <> [] ->
  first_reply provider true ->
  second_reply_any provider ->
  exists first second,
    Resend.enquiry_call data apiKey
      (or_text (TO_EMAIL env) (lit "info@chalet-josephine.com")) = Ok first
    /\ Resend.confirmation_call data apiKey = Ok second
    /\ (invoke provider (Resend.fetch request env)).1
       = [ReadBody; Sent first; Sent second].
Proof.
  intros Hm Hb Hfull Hkey Hne Hreply1 Hreply2.
  destruct (resend_calls data apiKey
              (or_text (TO_EMAIL env) (lit "info@chalet-josephine.com")) Hfull)
    as (first & second & Hfirst & Hsecond).
  exists first, second. split; [done |]. split; [done |].
  assert (Hv : passes_validation MailChannels.email_pattern data = true).
  { unfold fully_valid in Hfull. by apply andb_true_iff in Hfull as [[? _]%andb_true_iff _]. }
  destruct (validated_checks _ _ Hv) as [Hloop Htest].
  run_post Hm Hb. rewrite Hloop. cbn [lift]. rewrite Htest. cbn [lift negb].
  rewrite Hkey. apply str_eqb_neq in Hne as ->.
  rewrite Hfirst. cbn [lift run app].
  change (sends [ReadBody]) with (@nil OutCall).
  destruct (Hreply1 first) as (r1 & -> & ->). cbn [negb run app].
  rewrite Hsecond. cbn [lift run app].
  change (sends [ReadBody; Sent first]) with [first].
  by destruct (Hreply2 first second) as (r2 & ->).
Qed.

Lemma field_of_Get data name v :
  field_of data name = Some v -> Get data name = Ok (Some v).
Proof. destruct data; try discriminate. by intros <-. Qed.

(** What the first MailChannels call holds. *)
Lemma mc_enquiry_call_values data toEmail e first :
  field_of data (lit "email") = Some (JStr e) ->
  MailChannels.enquiry_call data toEmail = Ok first ->
  url first = lit "https://api.mailchannels.net/tx/v1/send"
  /\ init_method first = lit "POST"
  /\ init_headers first !! lit "Authorization" = None
  /\ call_value first
       [Key (lit "personalizations"); Index 0; Key (lit "to"); Index 0; Key (lit "email")]
     = Some (JStr toEmail)
  /\ call_value first
       [Key (lit "personalizations"); Index 0; Key (lit "reply_to"); Key (lit "email")]
     = Some (JStr e)
  /\ call_value first [Key (lit "from"); Key (lit "email")]
     = Some (JStr (lit "noreply@chalet-josephine.com")).
Proof.
  intros He%field_of_Get. unfold MailChannels.enquiry_call. rewrite He. cbn [rbind].
  destruct (template _) as [name |]; cbn [rbind]; [| discriminate].
  destruct (template _) as [subject |]; cbn [rbind]; [| discriminate].
  destruct (buildEmailHtml data) as [html |]; cbn [rbind]; [| discriminate].
  intros [= <-]. repeat split; vm_compute; reflexivity.
Qed.

(** What the second MailChannels call holds. *)
Lemma mc_confirmation_call_values data e second :
  field_of data (lit "email") = Some (JStr e) ->
  MailChannels.confirmation_call data = Ok second ->
  url second = lit "https://api.mailchannels.net/tx/v1/send"
  /\ init_method second = lit "POST"
  /\ init_headers second !! lit "Authorization" = None
  /\ call_value second
       [Key (lit "personalizations"); Index 0; Key (lit "to"); Index 0; Key (lit "email")]
     = Some (JStr e)
  /\ call_value second [Key (lit "from"); Key (lit "email")]
     = Some (JStr (lit "noreply@chalet-josephine.com"))
  /\ call_value second [Key (lit "subject")]
     = Some (JStr (lit "Thank you for your enquiry " ++ em_dash ++ lit " Chalet Josephine")).
Proof.
  intros He%field_of_Get. unfold MailChannels.confirmation_call. rewrite He. cbn [rbind].
  destruct (template _) as [name |]; cbn [rbind]; [| discriminate].
  destruct (buildConfirmationHtml data) as [html |]; cbn [rbind]; [| discriminate].
  intros [= <-]. repeat split; vm_compute; reflexivity.
Qed.

(** X13: for a fully valid enquiry whose first call is accepted, the
    MailChannels handler sends two POST calls to the MailChannels send
    endpoint, without credential: the first to the operator's address (the
    [TO_EMAIL] of the environment, or [info@chalet-josephine.com] when that
    is not set or empty) with the guest's address as reply-to, the second
    to the guest's address; both from [noreply@chalet-josephine.com]. *)
Theorem mailchannels_calls_addressed request env provider data e :
  method request = lit "POST" ->
  json_body request = Some data ->
  fully_valid MailChannels.email_pattern data = true ->
  field_of data (lit "email") = Some (JStr e) ->
  first_reply provider true ->
  second_reply_any provider ->
  exists first second,
    sends (invoke provider (MailChannels.fetch request env)).1 = [first; second]
    /\ (url first = lit "https://api.mailchannels.net/tx/v1/send"
        /\ init_method first = lit "POST"
        /\ init_headers first !! lit "Authorization" = None
        /\ call_value first
             [Key (lit "personalizations"); Index 0; Key (lit "to"); Index 0;
              Key (lit "email")]
           = Some (JStr (or_text (TO_EMAIL env) (lit "info@chalet-josephine.com")))
        /\ call_value first
             [Key (lit "personalizations"); Index 0; Key (lit "reply_to");
              Key (lit "email")]
           = Some (JStr e)
        /\ call_value first [Key (lit "from"); Key (lit "email")]
           = Some (JStr (lit "noreply@chalet-josephine.com")))
    /\ (url second = lit "https://api.mailchannels.net/tx/v1/send"
        /\ init_method second = lit "POST"
        /\ init_headers second !! lit "Authorization" = None
        /\ call_value second
             [Key (lit "personalizations"); Index 0; Key (lit "to"); Index 0;
              Key (lit "email")]
           = Some (JStr e)
        /\ call_value second [Key (lit "from"); Key (lit "email")]
           = Some (JStr (lit "noreply@chalet-josephine.com"))
        /\ call_value second [Key (lit "subject")]
           = Some (JStr (lit "Thank you for your enquiry " ++ em_dash
                         ++ lit " Chalet Josephine"))).
Proof.
  intros Hm Hb Hfull He Hreply1 Hreply2.
  destruct (mc_run_valid_calls request env provider data Hm Hb Hfull Hreply1 Hreply2)
    as (first & second & Hfirst & Hsecond & ->).
  exists first, second. split; [reflexivity |]. split.
  - by apply (mc_enquiry_call_values data).
  - by apply (mc_confirmation_call_values data).
Qed.

(** A complete enquiry, the operator's address overridden. *)
Lemma mailchannels_calls_addressed_example :
  exists first second,
    sends (invoke accepting_once (MailChannels.fetch (post enquiry) override_env)).1
    = [first; second]
    /\ call_value first
         [Key (lit "personalizations"); Index 0; Key (lit "to"); Index 0; Key (lit "email")]
       = Some (JStr (lit "owner@example.org"))
    /\ call_value second
         [Key (lit "personalizations"); Index 0; Key (lit "to"); Index 0; Key (lit "email")]
       = Some (JStr (lit "ann@example.com")).
Proof.
  destruct (mailchannels_calls_addressed (post enquiry) override_env accepting_once
              enquiry (lit "ann@example.com"))
    as (first & second & Hsends & (_ & _ & _ & Hto & _) & (_ & _ & _ & Hguest & _)).
  - reflexivity.
  - reflexivity.
  - vm_compute. reflexivity.
  - vm_compute. reflexivity.
  - intros call. eexists. split; reflexivity.
  - intros call1 call2. eexists. reflexivity.
  - exists first, second. split; [exact Hsends |]. split; [exact Hto | exact Hguest].
Defined.

(** What the first Resend call holds. *)
Lemma resend_enquiry_call_values data apiKey toEmail e first :
  field_of data (lit "email") = Some (JStr e) ->
  Resend.enquiry_call data apiKey toEmail = Ok first ->
  url first = lit "https://api.resend.com/emails"
  /\ init_method first = lit "POST"
  /\ init_headers first !! lit "Authorization" = Some (lit "Bearer " ++ apiKey)
  /\ call_value first [Key (lit "to")] = Some (JArr [JStr toEmail])
  /\ call_value first [Key (lit "reply_to")] = Some (JStr e)
  /\ call_value first [Key (lit "from")]
     = Some (JStr (lit "Chalet Josephine <noreply@chalet-josephine.com>")).
Proof.
  intros He%field_of_Get. unfold Resend.enquiry_call. rewrite He. cbn [rbind].
  destruct (template _) as [subject |]; cbn [rbind]; [| discriminate].
  destruct (buildEmailHtml data) as [html |]; cbn [rbind]; [| discriminate].
  intros [= <-]. repeat split; vm_compute; reflexivity.
Qed.

(** What the second Resend call holds. *)
Lemma resend_confirmation_call_values data apiKey e second :
  field_of data (lit "email") = Some (JStr e) ->
  Resend.confirmation_call data apiKey = Ok second ->
  url second = lit "https://api.resend.com/emails"
  /\ init_method second = lit "POST"
  /\ init_headers second !! lit "Authorization" = Some (lit "Bearer " ++ apiKey)
  /\ call_value second [Key (lit "to")] = Some (JArr [JStr e])
  /\ call_value second [Key (lit "reply_to")] = None
  /\ call_value second [Key (lit "from")]
     = Some (JStr (lit "Chalet Josephine <noreply@chalet-josephine.com>"))
  /\ call_value second [Key (lit "subject")]
     = Some (JStr (lit "Thank you for your enquiry " ++ em_dash ++ lit " Chalet Josephine")).
Proof.
  intros He%field_of_Get. unfold Resend.confirmation_call. rewrite He. cbn [rbind].
  destruct (buildConfirmationHtml data) as [html |]; cbn [rbind]; [| discriminate].
  intros [= <-]. repeat split; vm_compute; reflexivity.
Qed.

(** X14: for a fully valid enquiry whose first call is accepted, the
    Resend handler, its credential set, sends two POST calls to the Resend
    endpoint, each with the header [Authorization: Bearer <credential>]: the
    first to the operator's address (the [TO_EMAIL] of the environment, or
    [info@chalet-josephine.com] when that is not set or empty) with the
    guest's address as reply-to, the second to the guest's address alone,
    without reply-to. *)
Theorem resend_calls_addressed request env provider data apiKey e :
  method request = lit "POST" ->
  json_body request = Some data ->
  fully_valid MailChannels.email_pattern data = true ->
  field_of data (lit "email") = Some (JStr e) ->
  RESEND_API_KEY env = Some apiKey ->
  apiKey <> [] ->
  first_reply provider true ->
  second_reply_any provider ->
  exists first second,
    sends (invoke provider (Resend.fetch request env)).1 = [first; second]
    /\ (url first = lit "https://api.resend.com/emails"
        /\ init_method first = lit "POST"
        /\ init_headers first !! lit "Authorization" = Some (lit "Bearer " ++ apiKey)
        /\ call_value first [Key (lit "to")]
           = Some (JArr [JStr (or_text (TO_EMAIL env) (lit "info@chalet-josephine.com"))])
        /\ call_value first [Key (lit "reply_to")] = Some (JStr e)
        /\ call_value first [Key (lit "from")]
           = Some (JStr (lit "Chalet Josephine <noreply@chalet-josephine.com>")))
    /\ (url second = lit "https://api.resend.com/emails"
        /\ init_method second = lit "POST"
        /\ init_headers second !! lit "Authorization" = Some (lit "Bearer " ++ apiKey)
        /\ call_value second [Key (lit "to")] = Some (JArr [JStr e])
        /\ call_value second [Key (lit "reply_to")] = None
        /\ call_value second [Key (lit "from")]
           = Some (JStr (lit "Chalet Josephine <noreply@chalet-josephine.com>"))
        /\ call_value second [Key (lit "subject")]
           = Some (JStr (lit "Thank you for your enquiry " ++ em_dash
                         ++ lit " Chalet Josephine"))).
Proof.
  intros Hm Hb Hfull He Hkey Hne Hreply1 Hreply2.
  destruct (resend_run_valid_calls request env provider data apiKey
              Hm Hb Hfull Hkey Hne Hreply1 Hreply2)
    as (first & second & Hfirst & Hsecond & ->).
  exists first, second. split; [reflexivity |]. split.
  - by apply (resend_enquiry_call_values data).
  - by apply (resend_confirmation_call_values data).
Qed.

(** A complete enquiry, the operator's address left to its default. *)
Lemma resend_calls_addressed_example :
  exists first second,
    sends (invoke accepting (Resend.fetch (post enquiry) keyed_env)).1 = [first; second]
    /\ init_headers first !! lit "Authorization" = Some (lit "Bearer re_test")
    /\ call_value first [Key (lit "to")]
       = Some (JArr [JStr (lit "info@chalet-josephine.com")])
    /\ call_value second [Key (lit "to")] = Some (JArr [JStr (lit "ann@example.com")]).
Proof.
  destruct (resend_calls_addressed (post enquiry) keyed_env accepting
              enquiry (lit "re_test") (lit "ann@example.com"))
    as (first & second & Hsends & (_ & _ & Hauth & Hto & _) & (_ & _ & _ & Hguest & _)).
  - reflexivity.
  - reflexivity.
  - vm_compute. reflexivity.
  - vm_compute. reflexivity.
  - reflexivity.
  - discriminate.
  - intros call. eexists. split; reflexivity.
  - intros call1 call2. eexists. reflexivity.
  - exists first, second. split; [exact Hsends |].
    split; [exact Hauth |]. split; [exact Hto | exact Hguest].
Defined.

(** ** The mail documents *)

Lemma template_app parts1 parts2 :
  template (parts1 ++ parts2)
  = (let? a := template parts1 in let? b := template parts2 in Ok (a ++ b))%result.
Proof.
  induction parts1 as [| [s | expr] parts1 IH]; cbn [app template].
  - cbn [rbind]. by destruct (template parts2).
  - rewrite IH. destruct (template parts1) as [a |]; cbn [rbind]; [| done].
    destruct (template parts2) as [b |]; cbn [rbind]; [| done].
    by rewrite app_assoc.
  - destruct expr as [v |]; cbn [rbind]; [| done].
    destruct (ToString v) as [s |]; cbn [rbind]; [| done].
    rewrite IH. destruct (template parts1) as [a |]; cbn [rbind]; [| done].
    destruct (template parts2) as [b |]; cbn [rbind]; [| done].
    by rewrite app_assoc.
Qed.

(** A text substituted between two runs of parts stands verbatim between
    what they print. *)
Lemma template_insert parts1 parts2 before after x :
  template parts1 = Ok before ->
  template parts2 = Ok after ->
  template (parts1 ++ Subst (Ok (Some (JStr x))) :: parts2) = Ok (before ++ x ++ after).
Proof.
  intros H1 H2. rewrite template_app, H1. cbn [rbind template ToString ToString_json].
  by rewrite H2.
Qed.

Lemma nonblank_text_lookup (props : gmap jsstring json) name :
  nonblank_text (props !! name) = true -> exists s, props !! name = Some (JStr s).
Proof. destruct (props !! name) as [[| | | s | |] |]; try discriminate. eauto. Qed.

Lemma confirmation_verbatim (pattern : regex) (props : gmap jsstring json) :
  passes_validation pattern (JObj props) = true ->
  exists before after, forall x,
    buildConfirmationHtml (JObj (<[lit "first_name" := JStr x]> props))
    = Ok (before ++ x ++ after).
Proof.
  intros [] %passes_validation_validated. cbn [field_of] in *.
  apply nonblank_text_lookup in v_arrival_date0 as [a Ha],
    v_departure_date0 as [d Hd], v_guests0 as [g Hg].
  eexists _, _. intros x. unfold buildConfirmationHtml. cbn [Get].
  rewrite lookup_insert_eq, !lookup_insert_ne by done. rewrite Ha, Hd, Hg.
  match goal with
  | |- template (?t :: ?s :: ?rest) = ?rhs =>
      change (template ([t] ++ s :: rest) = rhs)
  end.
  apply template_insert; cbn [template rbind ToString ToString_json]; reflexivity.
Qed.

Lemma notification_verbatim (pattern : regex) (props : gmap jsstring json) :
  fully_valid pattern (JObj props) = true ->
  exists before after, forall x, x <> [] ->
    buildEmailHtml (JObj (<[lit "message" := JStr x]> props))
    = Ok (before ++ x ++ after).
Proof.
  unfold fully_valid. rewrite !andb_true_iff. intros [[Hv Hphone] _].
  apply passes_validation_validated in Hv as []. cbn [field_of] in *.
  apply nonblank_text_lookup in v_first_name0 as [fn Hfn], v_last_name0 as [ln Hln],
    v_email0 as [e He], v_arrival_date0 as [a Ha], v_departure_date0 as [d Hd],
    v_guests0 as [g Hg].
  apply (or_else_printable _ (lit "Not provided")) in Hphone. unfold printable in Hphone.
  destruct (ToString (or_else (props !! lit "phone") (Some (JStr (lit "Not provided")))))
    as [phone |] eqn:Hp; [| discriminate].
  eexists _, _. intros x Hx%str_eqb_neq. unfold buildEmailHtml. cbn [Get or_default rbind].
  rewrite lookup_insert_eq, !lookup_insert_ne by done.
  rewrite Hfn, Hln, He, Ha, Hd, Hg.
  unfold or_else at 2. cbn [truthy]. rewrite Hx. cbn [negb].
  match goal with
  | |- template ?parts = ?rhs =>
      rewrite <- (take_drop 17 parts); cbn [firstn skipn]
  end.
  apply template_insert; cbn [template rbind ToString ToString_json];
    rewrite ?Hp; cbn [rbind]; reflexivity.
Qed.

(** X15: the two documents insert text as it is: with the other fields
    fixed, the notification is one fixed text before the message and one
    after it, whatever the (non-empty) message, and the confirmation is one
    fixed text before the first name and one after it, whatever the first
    name; nothing in the inserted text is escaped or changed. *)
Theorem values_inserted_verbatim (props : gmap jsstring json) :
  fully_valid MailChannels.email_pattern (JObj props) = true ->
  (exists before after, forall x, x <> [] ->
     buildEmailHtml (JObj (<[lit "message" := JStr x]> props))
     = Ok (before ++ x ++ after))
  /\ (exists before after, forall x,
        buildConfirmationHtml (JObj (<[lit "first_name" := JStr x]> props))
        = Ok (before ++ x ++ after)).
Proof.
  intros Hfull. split.
  - by apply (notification_verbatim MailChannels.email_pattern).
  - apply (confirmation_verbatim MailChannels.email_pattern).
    unfold fully_valid in Hfull. by apply andb_true_iff in Hfull as [[? _]%andb_true_iff _].
Qed.

(** The sample enquiry with any first name. *)
Lemma values_inserted_verbatim_example :
  exists before after, forall x,
    buildConfirmationHtml (JObj (<[lit "first_name" := JStr x]> enquiry_props))
    = Ok (before ++ x ++ after).
Proof.
  apply (values_inserted_verbatim enquiry_props). vm_compute. reflexivity.
Defined.

(** X16: a phone number or a message that is missing, [null], empty,
    [false] or zero is printed in the notification as the text
    [Not provided], respectively [No message provided]: the document is the
    one of the same payload with that text in the field. *)
Theorem optional_fields_default (props : gmap jsstring json) :
  (truthy (props !! lit "phone") = false ->
   buildEmailHtml (JObj props)
   = buildEmailHtml (JObj (<[lit "phone" := JStr (lit "Not provided")]> props)))
  /\ (truthy (props !! lit "message") = false ->
      buildEmailHtml (JObj props)
      = buildEmailHtml (JObj (<[lit "message" := JStr (lit "No message provided")]> props))).
Proof.
  split; intros Hfalsy; unfold buildEmailHtml; cbn [Get or_default rbind];
    rewrite lookup_insert_eq, !lookup_insert_ne by done;
    unfold or_else; rewrite Hfalsy; reflexivity.
Qed.

(** The sample enquiry, which has neither phone number nor message. *)
Lemma optional_fields_default_example :
  buildEmailHtml (JObj enquiry_props)
  = buildEmailHtml (JObj (<[lit "phone" := JStr (lit "Not provided")]> enquiry_props)).
Proof.
  apply (optional_fields_default enquiry_props). vm_compute. reflexivity.
Defined.

(** The notification cannot be rendered when the phone number is an
    object with a [toString] property of its own. *)
Lemma buildEmailHtml_throws (pattern : regex) (props phone : gmap jsstring json)
    (w : json) :
  passes_validation pattern (JObj props) = true ->
  props !! lit "phone" = Some (JObj phone) ->
  phone !! lit "toString" = Some w ->
  buildEmailHtml (JObj props) = Err TypeError.
Proof.
  intros [] %passes_validation_validated Hphone Hshadow. cbn [field_of] in *.
  apply nonblank_text_lookup in v_first_name0 as [fn Hfn], v_last_name0 as [ln Hln],
    v_email0 as [e He].
  unfold buildEmailHtml. cbn [Get or_default rbind].
  rewrite Hfn, Hln, He, Hphone. unfold or_else at 1. cbn [truthy].
  match goal with
  | |- template ?parts = ?rhs =>
      rewrite <- (take_drop 9 parts); cbn [firstn skipn]
  end.
  rewrite template_app. cbn [template rbind ToString ToString_json].
  by rewrite Hshadow.
Qed.

(** X17: a payload that passes validation but whose phone number is an
    object with a [toString] property of its own makes both handlers throw
    a TypeError while they render the notification: nothing is sent and no
    response is returned.  (The Resend variant renders only when its
    credential is set.) *)
Theorem unprintable_phone_throws (request : Request) (env : Env) (provider : Provider)
    (props phone : gmap jsstring json) (w : json) :
  method request = lit "POST" ->
  json_body request = Some (JObj props) ->
  passes_validation MailChannels.email_pattern (JObj props) = true ->
  props !! lit "phone" = Some (JObj phone) ->
  phone !! lit "toString" = Some w ->
  invoke provider (MailChannels.fetch request env) = ([ReadBody], Thrown TypeError)
  /\ (forall apiKey, RESEND_API_KEY env = Some apiKey -> apiKey <> [] ->
      invoke provider (Resend.fetch request env) = ([ReadBody], Thrown TypeError)).
Proof.
  intros Hm Hb Hv Hphone Hshadow.
  pose proof (buildEmailHtml_throws _ props phone w Hv Hphone Hshadow) as Hhtml.
  destruct (validated_checks _ _ Hv) as [Hloop Htest].
  pose proof (passes_validation_validated _ _ Hv) as [].
  destruct v_address0 as (e & He & _).
  assert (Hname : exists name,
    template [ Subst (Get (JObj props) (lit "first_name")); Text (lit " ");
               Subst (Get (JObj props) (lit "last_name")) ] = Ok name).
  { apply template_prints. parts_print. }
  assert (Hsubject : exists subject,
    template [ Text (lit "Booking Enquiry: ");
               Subst (Get (JObj props) (lit "first_name")); Text (lit " ");
               Subst (Get (JObj props) (lit "last_name"));
               Text (lit " " ++ em_dash ++ lit " ");
               Subst (Get (JObj props) (lit "arrival_date")); Text (lit " to ");
               Subst (Get (JObj props) (lit "departure_date")) ] = Ok subject).
  { apply template_prints. parts_print. }
  destruct Hname as [name Hname], Hsubject as [subject Hsubject].
  split.
  - run_post Hm Hb. rewrite Hloop. cbn [lift]. rewrite Htest. cbn [lift negb].
    unfold MailChannels.enquiry_call. rewrite He, Hname, Hsubject, Hhtml.
    reflexivity.
  - intros apiKey Hkey Hne.
    run_post Hm Hb. rewrite Hloop. cbn [lift]. rewrite Htest. cbn [lift negb].
    rewrite Hkey. apply str_eqb_neq in Hne as ->.
    unfold Resend.enquiry_call. rewrite He, Hsubject, Hhtml.
    reflexivity.
Qed.

(** The sample enquiry with such a phone number. *)
Lemma unprintable_phone_throws_example :
  invoke accepting
    (MailChannels.fetch (post (enquiry_with (lit "phone") shadowing)) bare_env)
  = ([ReadBody], Thrown TypeError).
Proof.
  apply (unprintable_phone_throws
           (post (enquiry_with (lit "phone") shadowing)) bare_env accepting
           (<[lit "phone" := shadowing]> enquiry_props)
           {[ lit "toString" := JNull ]} JNull).
  - reflexivity.
  - reflexivity.
  - vm_compute. reflexivity.
  - vm_compute. reflexivity.
  - vm_compute. reflexivity.
Defined.

(** ** The subject of the notification *)

Lemma mc_enquiry_call_subject data toEmail fn ln a d first :
  field_of data (lit "first_name") = Some (JStr fn) ->
  field_of data (lit "last_name") = Some (JStr ln) ->
  field_of data (lit "arrival_date") = Some (JStr a) ->
  field_of data (lit "departure_date") = Some (JStr d) ->
  MailChannels.enquiry_call data toEmail = Ok first ->
  call_value first [Key (lit "subject")]
  = Some (JStr (lit "Booking Enquiry: " ++ fn ++ lit " " ++ ln
                ++ lit " " ++ em_dash ++ lit " " ++ a ++ lit " to " ++ d))
  /\ call_value first
       [Key (lit "personalizations"); Index 0; Key (lit "reply_to"); Key (lit "name")]
     = Some (JStr (fn ++ lit " " ++ ln)).
Proof.
  intros Hfn%field_of_Get Hln%field_of_Get Ha%field_of_Get Hd%field_of_Get.
  unfold MailChannels.enquiry_call. rewrite Hfn, Hln, Ha, Hd.
  destruct (Get data (lit "email")) as [reply_to |]; cbn [rbind]; [| discriminate].
  cbn [template rbind ToString ToString_json]. rewrite !app_nil_r.
  destruct (buildEmailHtml data) as [html |]; cbn [rbind]; [| discriminate].
  intros [= <-]. destruct reply_to; split; vm_compute; reflexivity.
Qed.

Lemma resend_enquiry_call_subject data apiKey toEmail fn ln a d first :
  field_of data (lit "first_name") = Some (JStr fn) ->
  field_of data (lit "last_name") = Some (JStr ln) ->
  field_of data (lit "arrival_date") = Some (JStr a) ->
  field_of data (lit "departure_date") = Some (JStr d) ->
  Resend.enquiry_call data apiKey toEmail = Ok first ->
  call_value first [Key (lit "subject")]
  = Some (JStr (lit "Booking Enquiry: " ++ fn ++ lit " " ++ ln
                ++ lit " " ++ em_dash ++ lit " " ++ a ++ lit " to " ++ d)).
Proof.
  intros Hfn%field_of_Get Hln%field_of_Get Ha%field_of_Get Hd%field_of_Get.
  unfold Resend.enquiry_call. rewrite Hfn, Hln, Ha, Hd.
  destruct (Get data (lit "email")) as [reply_to |]; cbn [rbind]; [| discriminate].
  cbn [template rbind ToString ToString_json]. rewrite !app_nil_r.
  destruct (buildEmailHtml data) as [html |]; cbn [rbind]; [| discriminate].
  intros [= <-]. destruct reply_to; vm_compute; reflexivity.
Qed.

(** X18: the notification of a fully valid enquiry has the subject
    [Booking Enquiry: <first name> <last name> — <arrival> to <departure>],
    the four texts as submitted, untrimmed; in the MailChannels variant the
    reply-to name is [<first name> <last name>]. *)
Theorem notification_subject request env provider data fn ln a d :
  method request = lit "POST" ->
  json_body request = Some data ->
  fully_valid MailChannels.email_pattern data = true ->
  field_of data (lit "first_name") = Some (JStr fn) ->
  field_of data (lit "last_name") = Some (JStr ln) ->
  field_of data (lit "arrival_date") = Some (JStr a) ->
  field_of data (lit "departure_date") = Some (JStr d) ->
  first_reply provider true ->
  second_reply_any provider ->
  (exists first second,
     sends (invoke provider (MailChannels.fetch request env)).1 = [first; second]
     /\ call_value first [Key (lit "subject")]
        = Some (JStr (lit "Booking Enquiry: " ++ fn ++ lit " " ++ ln
                      ++ lit " " ++ em_dash ++ lit " " ++ a ++ lit " to " ++ d))
     /\ call_value first
          [Key (lit "personalizations"); Index 0; Key (lit "reply_to"); Key (lit "name")]
        = Some (JStr (fn ++ lit " " ++ ln)))
  /\ (forall apiKey, RESEND_API_KEY env = Some apiKey -> apiKey <> [] ->
      exists first second,
        sends (invoke provider (Resend.fetch request env)).1 = [first; second]
        /\ call_value first [Key (lit "subject")]
           = Some (JStr (lit "Booking Enquiry: " ++ fn ++ lit " " ++ ln
                         ++ lit " " ++ em_dash ++ lit " " ++ a ++ lit " to " ++ d))).
Proof.
  intros Hm Hb Hfull Hfn Hln Ha Hd Hreply1 Hreply2. split.
  - destruct (mc_run_valid_calls request env provider data Hm Hb Hfull Hreply1 Hreply2)
      as (first & second & Hfirst & _ & ->).
    exists first, second. split; [reflexivity |].
    by apply (mc_enquiry_call_subject data
                (or_text (TO_EMAIL env) (lit "info@chalet-josephine.com"))).
  - intros apiKey Hkey Hne.
    destruct (resend_run_valid_calls request env provider data apiKey
                Hm Hb Hfull Hkey Hne Hreply1 Hreply2)
      as (first & second & Hfirst & _ & ->).
    exists first, second. split; [reflexivity |].
    by apply (resend_enquiry_call_subject data apiKey
                (or_text (TO_EMAIL env) (lit "info@chalet-josephine.com"))).
Qed.

(** The subject of the sample enquiry. *)
Lemma notification_subject_example :
  exists first second,
    sends (invoke accepting (MailChannels.fetch (post enquiry) bare_env)).1 = [first; second]
    /\ call_value first [Key (lit "subject")]
       = Some (JStr (lit "Booking Enquiry: Ann Lee " ++ em_dash
                     ++ lit " 2025-01-04 to 2025-01-11")).
Proof.
  destruct (notification_subject (post enquiry) bare_env accepting enquiry
              (lit "Ann") (lit "Lee") (lit "2025-01-04") (lit "2025-01-11"))
    as [(first & second & Hsends & Hsubject & _) _].
  - reflexivity.
  - reflexivity.
  - vm_compute. reflexivity.
  - vm_compute. reflexivity.
  - vm_compute. reflexivity.
  - vm_compute. reflexivity.
  - vm_compute. reflexivity.
  - intros call. eexists. split; reflexivity.
  - intros call1 call2. eexists. reflexivity.
  - exists first, second. split; [exact Hsends |].
    rewrite Hsubject. vm_compute. reflexivity.
Defined.

(** ** Accepted addresses *)

Lemma part_chars_facts (l : jsstring) :
  Forall (fun c => non_space_non_at c = true) l ->
  count_occ N.eq_dec l 64%N = 0 /\ Forall (fun c => is_space c = false) l.
Proof.
  induction 1 as [| c l Hc _ [IHcount IHspace]]; [by split |].
  unfold non_space_non_at in Hc. apply andb_true_iff in Hc as [Hs%negb_true_iff Hat%negb_true_iff].
  apply N.eqb_neq in Hat. split.
  - rewrite count_occ_cons_neq by done. exact IHcount.
  - by constructor.
Qed.

(** X19: an address that passes the address test holds exactly one [@],
    no whitespace, a dot, and at least five code units. *)
Theorem accepted_address_facts (e : jsstring) :
  full_match MailChannels.email_pattern e = true ->
  count_occ N.eq_dec e 64%N = 1
  /\ Forall (fun c => is_space c = false) e
  /\ In 46%N e
  /\ 5 <= length e.
Proof.
  intros (local & domain & tld & -> & Hl & Hd & Ht & Hlocal & Hdomain & Htld)%email_pattern_spec.
  apply part_chars_facts in Hlocal as [Hl0 Hls], Hdomain as [Hd0 Hds], Htld as [Ht0 Hts].
  split; [| split; [| split]].
  - rewrite !count_occ_app, Hl0, Hd0, Ht0. reflexivity.
  - repeat (apply Forall_app; split); try done; by repeat constructor.
  - rewrite !in_app_iff. right. right. right. left. by left.
  - rewrite !length_app. cbn [length].
    destruct local, domain, tld; try done. cbn [length]. lia.
Qed.

(** The address of the sample enquiry. *)
Lemma accepted_address_facts_example :
  count_occ N.eq_dec (lit "ann@example.com") 64%N = 1.
Proof.
  apply (accepted_address_facts (lit "ann@example.com")). vm_compute. reflexivity.
Defined.

(** ** Blank fields *)

Lemma trimStart_head s :
  trimStart s = [] \/ exists c rest, trimStart s = c :: rest /\ is_space c = false.
Proof.
  induction s as [| c s IH]; cbn [trimStart]; [by left |].
  destruct (is_space c) eqn:Hc; [exact IH | right; eauto].
Qed.

Lemma trimStart_nil s :
  trimStart s = [] <-> Forall (fun c => is_space c = true) s.
Proof.
  induction s as [| c s IH]; cbn [trimStart]; [by split |].
  destruct (is_space c) eqn:Hc; split.
  - intros H%IH. by constructor.
  - intros H. apply IH. by inversion H.
  - discriminate.
  - intros H. inversion H. congruence.
Qed.

(** A text is blank after trimming exactly when it is made of whitespace
    only. *)
Lemma trim_nil s : trim s = [] <-> Forall (fun c => is_space c = true) s.
Proof.
  unfold trim, trimEnd. rewrite <- trimStart_nil. split.
  - intros H. apply (f_equal (@rev N)) in H. rewrite rev_involutive in H.
    cbn [rev] in H. apply trimStart_nil in H. apply Forall_rev in H.
    rewrite rev_involutive in H.
    destruct (trimStart_head s) as [Hnil | (c & rest & Hhead & Hc)]; [done |].
    rewrite Hhead in H. inversion H. congruence.
  - intros ->. reflexivity.
Qed.

(** X20: a required field that holds text made of whitespace only, of
    any of the kinds [trim] removes, is reported as missing, when the fields
    before it hold non-blank text. *)
Theorem whitespace_only_field_missing request env provider data before f after s :
  method request = lit "POST" ->
  json_body request = Some data ->
  validation_order = before ++ f :: after ->
  forallb (fun g => nonblank_text (field_of data g)) before = true ->
  field_of data f = Some (JStr s) ->
  Forall (fun c => is_space c = true) s ->
  answers (invoke provider (MailChannels.fetch request env))
    400 (error_body (lit "Missing required field: " ++ f))
  /\ answers (invoke provider (Resend.fetch request env))
    400 (error_body (lit "Missing required field: " ++ f)).
Proof.
  intros Hm Hb Horder Hbefore Hf Hblank%trim_nil.
  assert (Hloop : MailChannels.missing_field data MailChannels.required = Ok (Some f)).
  { change MailChannels.required with validation_order. rewrite Horder.
    apply missing_field_first; [by intros -> | done |].
    rewrite Hf. cbn [missing_or_blank]. rewrite Hblank. apply str_eqb_refl. }
  assert (Hv : passes_validation MailChannels.email_pattern data = false).
  { destruct (passes_validation _ data) eqn:Hv; [| done].
    destruct (validated_checks _ _ Hv) as [Hnone _]. congruence. }
  split.
  - rewrite (run_rejected MailChannels.fetch request env provider data) by auto.
    rewrite Hloop. apply answers_jsonResponse.
  - rewrite (run_rejected Resend.fetch request env provider data) by auto.
    rewrite Hloop. apply answers_jsonResponse.
Qed.

(** A last name made of a space, a tab and a no-break space. *)
Lemma whitespace_only_field_missing_example :
  answers (invoke accepting (MailChannels.fetch (post blank_named_enquiry) bare_env))
    400 (error_body (lit "Missing required field: last_name"))
  /\ answers (invoke accepting (Resend.fetch (post blank_named_enquiry) bare_env))
    400 (error_body (lit "Missing required field: last_name")).
Proof.
  apply (whitespace_only_field_missing (post blank_named_enquiry) bare_env accepting
           blank_named_enquiry [lit "first_name"] (lit "last_name")
           [lit "email"; lit "arrival_date"; lit "departure_date"; lit "guests"]
           [32; 9; 160]%N).
  - reflexivity.
  - reflexivity.
  - reflexivity.
  - vm_compute. reflexivity.
  - vm_compute. reflexivity.
  - repeat constructor.
Defined.

(** ** The two variants on a valid enquiry *)

(** X21: on a fully valid enquiry, the Resend variant with its credential
    set and the MailChannels variant end the same way, with the same
    response or the same exception, against a provider whose answers do not
    depend on what the calls hold. *)
Theorem variants_agree_when_configured request env env' provider data apiKey :
  method request = lit "POST" ->
  json_body request = Some data ->
  fully_valid MailChannels.email_pattern data = true ->
  RESEND_API_KEY env' = Some apiKey ->
  apiKey <> [] ->
  call_blind provider ->
  (invoke provider (MailChannels.fetch request env)).2
  = (invoke provider (Resend.fetch request env')).2.
Proof.
  intros Hm Hb Hfull Hkey Hne Hblind.
  destruct (mc_run_valid request env provider data Hm Hb Hfull)
    as (first & second & ->).
  destruct (resend_run_valid request env' provider data apiKey Hm Hb Hfull Hkey Hne)
    as (first' & second' & ->).
  rewrite (Hblind [] [] first first' eq_refl).
  destruct (provider [] first') as [r1 |]; [| reflexivity].
  destruct (ok r1); [| reflexivity].
  rewrite (Hblind [first] [first'] second second' eq_refl).
  by destruct (provider [first'] second').
Qed.

(** The sample enquiry against a provider that accepts once. *)
Lemma variants_agree_when_configured_example :
  (invoke accepting_once (MailChannels.fetch (post enquiry) bare_env)).2
  = (invoke accepting_once (Resend.fetch (post enquiry) keyed_env)).2.
Proof.
  apply (variants_agree_when_configured (post enquiry) bare_env keyed_env
           accepting_once enquiry (lit "re_test")).
  - reflexivity.
  - reflexivity.
  - vm_compute. reflexivity.
  - reflexivity.
  - discriminate.
  - intros history history' call call' Hlen.
    destruct history, history'; try discriminate; reflexivity.
Defined.
